(** * Fitness tracker (homework.py): distance, mean speed and calories
      of running, sports walking and swimming workouts.

    The program is a small Python class hierarchy.  The embedding keeps
    its shape:

    - Python numbers are [int] (unbounded, [Z]) or [float] (IEEE 754
      binary64, Rocq's primitive floats), with the language's mixed
      arithmetic and its exceptions;
    - an instance is a class tag and an attribute dictionary; attribute
      reads go through the instance dictionary and then the classes of
      the method resolution order, method calls are resolved the same way;
    - methods are computations over [self] in a state-and-exception monad,
      written with the operators of the source expressions.

    [InfoMessage.get_message] formats numbers as Python's [':.3f']
    does, correctly rounded with ties to even; text is kept as its UTF-8
    bytes, and the standard output of the script is the list of the lines
    printed. *)

From Stdlib Require Import ZArith Ascii Floats Lia.
From stdpp Require Import base option list gmap strings.
From stdpp Require Import pretty.

Set Warnings "-inexact-float".
Local Open Scope Z_scope.

(** ** Exceptions and outcomes *)

Inductive exn : Type :=
| ZeroDivisionError
| OverflowError
| TypeError
| AttributeError (name : string)
| NotImplementedError (msg : string)
| ValueError (msg : string).

Inductive result (A : Type) : Type :=
| Ok (a : A)
| Raise (e : exn).
Arguments Ok {A} a.
Arguments Raise {A} e.

#[global] Instance result_ret : MRet result := λ A a, Ok a.
#[global] Instance result_bind : MBind result := λ A B k r,
  match r with
  | Ok a => k a
  | Raise e => Raise e
  end.
#[global] Instance result_fmap : FMap result := λ A B f r,
  match r with
  | Ok a => Ok (f a)
  | Raise e => Raise e
  end.

Definition is_ok {A} (r : result A) : bool :=
  match r with Ok _ => true | Raise _ => false end.

(** ** Python numbers *)

Inductive num : Type :=
| PyInt (z : Z)
| PyFloat (f : float).

(** [x == 0] *)
Definition num_is_zero (x : num) : bool :=
  match x with
  | PyInt z => z =? 0
  | PyFloat f => (f =? 0)%float
  end.

(** Conversion of an [int] operand to a double: round to nearest, ties to
    even; an integer that rounds beyond the largest double raises
    [OverflowError]. *)
Definition PyLong_AsDouble (z : Z) : result float :=
  match binary_normalize prec emax z 0 false with
  | S754_infinity _ => Raise OverflowError
  | sf => Ok (SF2Prim sf)
  end.

Definition as_double (x : num) : result float :=
  match x with
  | PyInt z => PyLong_AsDouble z
  | PyFloat f => Ok f
  end.

(** [int / int]: the correctly rounded quotient. *)
Definition long_true_divide (a b : Z) : result float :=
  if b =? 0 then Raise ZeroDivisionError
  else
    let negate := xorb (a <? 0) (b <? 0) in
    if a =? 0 then Ok (SF2Prim (S754_zero negate))
    else
      let '(m, e, l) := SFdiv_core_binary prec emax (Z.abs a) 0 (Z.abs b) 0 in
      match binary_round_aux prec emax negate m e l with
      | S754_infinity _ => Raise OverflowError
      | sf => Ok (SF2Prim sf)
      end.

(** [float / float]: only a zero divisor raises. *)
Definition float_div (a b : float) : result float :=
  if (b =? 0)%float then Raise ZeroDivisionError else Ok (a / b)%float.

Definition py_mul (x y : num) : result num :=
  match x, y with
  | PyInt a, PyInt b => Ok (PyInt (a * b))
  | _, _ => a ← as_double x; b ← as_double y; Ok (PyFloat (a * b))
  end.

Definition py_add (x y : num) : result num :=
  match x, y with
  | PyInt a, PyInt b => Ok (PyInt (a + b))
  | _, _ => a ← as_double x; b ← as_double y; Ok (PyFloat (a + b))
  end.

Definition py_truediv (x y : num) : result num :=
  match x, y with
  | PyInt a, PyInt b => PyFloat <$> long_true_divide a b
  | _, _ => a ← as_double x; b ← as_double y; PyFloat <$> float_div a b
  end.

(** ** Classes and instances *)

Inductive class : Type := Training | Running | SportsWalking | Swimming.

#[global] Instance class_eq_dec : EqDecision class.
Proof. solve_decision. Defined.

(** [cls.__name__] *)
Definition class_name (c : class) : string :=
  match c with
  | Training => "Training"
  | Running => "Running"
  | SportsWalking => "SportsWalking"
  | Swimming => "Swimming"
  end.

(** Method resolution order: the class, then its base. *)
Definition mro (c : class) : list class :=
  match c with
  | Training => [Training]
  | Running => [Running; Training]
  | SportsWalking => [SportsWalking; Training]
  | Swimming => [Swimming; Training]
  end.

(** The constants each class body binds. *)
Definition class_dict (c : class) : gmap string num :=
  match c with
  | Training =>
      {[ "LEN_STEP" := PyFloat 0.65;
         "M_IN_KM" := PyInt 1000;
         "MIN_IN_H" := PyInt 60 ]}
  | Running =>
      {[ "CALORIES_MEAN_SPEED_MULTIPLIER" := PyInt 18;
         "CALORIES_MEAN_SPEED_SHIFT" := PyFloat 1.79 ]}
  | SportsWalking =>
      {[ "CALORIES_WEIGHT_MULTIPLIER" := PyFloat 0.035;
         "CALORIES_SPEED_HEIGHT_MULTIPLIER" := PyFloat 0.029;
         "KMH_IN_MSEC" := PyFloat 0.278;
         "CM_IN_M" := PyInt 100 ]}
  | Swimming =>
      {[ "LEN_STEP" := PyFloat 1.38;
         "CALORIES_MEAN_SPEED_MULTIPLIER" := PyFloat 1.1;
         "CALORIES_WEIGHT_SHIFT" := PyInt 2 ]}
  end.

(** First class of the resolution order that binds the name. *)
Fixpoint lookup_mro {A} (own : class → option A) (l : list class) : option A :=
  match l with
  | [] => None
  | c :: l' =>
      match own c with
      | Some a => Some a
      | None => lookup_mro own l'
      end
  end.

Record object : Type := Object {
  ob_type : class;
  ob_dict : gmap string num
}.

(** ** Computations over [self] *)

Definition M (A : Type) : Type := object → result A * object.

#[global] Instance M_ret : MRet M := λ A a self, (Ok a, self).
#[global] Instance M_bind : MBind M := λ A B k m self,
  match m self with
  | (Ok a, self') => k a self'
  | (Raise e, self') => (Raise e, self')
  end.

Definition lift {A} (r : result A) : M A := λ self, (r, self).

(** Outcome and final state of a computation. *)
Definition eval {A} (m : M A) (self : object) : result A := (m self).1.
Definition exec {A} (m : M A) (self : object) : object := (m self).2.

(** [self.name]: the instance dictionary, then the classes of the
    resolution order. *)
Definition getattr (name : string) : M num := λ self,
  match ob_dict self !! name with
  | Some v => (Ok v, self)
  | None =>
      match lookup_mro (λ c, class_dict c !! name) (mro (ob_type self)) with
      | Some v => (Ok v, self)
      | None => (Raise (AttributeError name), self)
      end
  end.

(** [self.name = v] *)
Definition setattr (name : string) (v : num) : M unit := λ self,
  (Ok (), Object (ob_type self) (<[name := v]> (ob_dict self))).

(** [self.__class__.__name__] *)
Definition self_class_name : M string := λ self,
  (Ok (class_name (ob_type self)), self).

(** A binary operator applied to two sub-expressions, the left one
    evaluated first. *)
Definition binop (op : num → num → result num) (e1 e2 : M num) : M num :=
  x ← e1; y ← e2; lift (op x y).

(** The same on outcomes that are already computed, for closed formulas. *)
Definition rbinop (op : num → num → result num) (r1 r2 : result num) : result num :=
  x ← r1; y ← r2; op x y.

Declare Scope py_scope.
Delimit Scope py_scope with py.
Notation "a * b" := (binop py_mul a b) : py_scope.
Notation "a + b" := (binop py_add a b) : py_scope.
Notation "a / b" := (binop py_truediv a b) : py_scope.

Declare Scope pyval_scope.
Delimit Scope pyval_scope with pyval.
Notation "a * b" := (rbinop py_mul a b) : pyval_scope.
Notation "a + b" := (rbinop py_add a b) : pyval_scope.
Notation "a / b" := (rbinop py_truediv a b) : pyval_scope.

(** Literals and values inside closed formulas. *)
Definition int (z : Z) : result num := Ok (PyInt z).
Definition flt (f : float) : result num := Ok (PyFloat f).
Definition val (x : num) : result num := Ok x.

(** The summary record (a dataclass). *)
Record InfoMessage : Type := mkInfoMessage {
  training_type : string;
  duration : num;
  distance : num;
  speed : num;
  calories : num
}.

Definition dquote : string := String "034"%char EmptyString.

(** ** The classes of homework.py *)

Section Homework.

(** [float.__pow__] on two doubles.  It wraps the platform's C library
    [pow], so its values and its [OverflowError] are left open here. *)
Variable float_pow : float → float → result float.

(** [x ** y] *)
Definition py_pow (x y : num) : result num :=
  match x, y with
  | PyInt a, PyInt b =>
      if 0 <=? b then Ok (PyInt (a ^ b))
      else a' ← PyLong_AsDouble a; b' ← PyLong_AsDouble b; PyFloat <$> float_pow a' b'
  | _, _ => a ← as_double x; b ← as_double y; PyFloat <$> float_pow a b
  end.

Notation "a ** b" := (binop py_pow a b) (at level 30, right associativity) : py_scope.
Notation "a ** b" := (rbinop py_pow a b) (at level 30, right associativity) : pyval_scope.

(** *** Training *)

Definition Training_init (action duration weight : num) : M unit :=
  setattr "action" action;;
  setattr "duration" duration;;
  setattr "weight" weight.

Definition Training_get_distance : M num :=
  (getattr "action" * getattr "LEN_STEP" / getattr "M_IN_KM")%py.

(** [self.get_distance()]: no subclass overrides it. *)
Definition get_distance : M num := λ self,
  match lookup_mro
          (λ c, match c with Training => Some Training_get_distance | _ => None end)
          (mro (ob_type self)) with
  | Some method => method self
  | None => (Raise (AttributeError "get_distance"), self)
  end.

Definition Training_get_mean_speed : M num :=
  (get_distance / getattr "duration")%py.

(** *** Swimming.get_mean_speed *)

Definition Swimming_get_mean_speed : M num :=
  (getattr "length_pool" * getattr "count_pool" / getattr "M_IN_KM"
   / getattr "duration")%py.

(** [self.get_mean_speed()] *)
Definition get_mean_speed : M num := λ self,
  match lookup_mro
          (λ c, match c with
                | Training => Some Training_get_mean_speed
                | Swimming => Some Swimming_get_mean_speed
                | _ => None
                end)
          (mro (ob_type self)) with
  | Some method => method self
  | None => (Raise (AttributeError "get_mean_speed"), self)
  end.

Definition Training_get_spent_calories : M num :=
  name ← self_class_name;
  lift (Raise (NotImplementedError
                 ("In class " +:+ dquote +:+ name +:+ dquote +:+ " "
                  +:+ "is not implemented method "
                  +:+ dquote +:+ "get_spent_calories" +:+ dquote))).

(** *** Running *)

Definition Running_get_spent_calories : M num :=
  ((getattr "CALORIES_MEAN_SPEED_MULTIPLIER"
    * get_mean_speed
    + getattr "CALORIES_MEAN_SPEED_SHIFT")
   * getattr "weight"
   / getattr "M_IN_KM"
   * (getattr "duration" * getattr "MIN_IN_H"))%py.

(** *** SportsWalking *)

Definition SportsWalking_init (action duration weight height : num) : M unit :=
  Training_init action duration weight;;
  setattr "height" height.

Definition SportsWalking_get_spent_calories : M num :=
  ((getattr "CALORIES_WEIGHT_MULTIPLIER" * getattr "weight"
    + ((get_mean_speed * getattr "KMH_IN_MSEC") ** lift (int 2)
       / (getattr "height" / getattr "CM_IN_M"))
      * getattr "CALORIES_SPEED_HEIGHT_MULTIPLIER"
      * getattr "weight")
   * (getattr "duration" * getattr "MIN_IN_H"))%py.

(** *** Swimming *)

Definition Swimming_init (action duration weight length_pool count_pool : num) : M unit :=
  Training_init action duration weight;;
  setattr "length_pool" length_pool;;
  setattr "count_pool" count_pool.

Definition Swimming_get_spent_calories : M num :=
  ((get_mean_speed
    + getattr "CALORIES_MEAN_SPEED_MULTIPLIER")
   * getattr "CALORIES_WEIGHT_SHIFT" * getattr "weight"
   * getattr "duration")%py.

(** [self.get_spent_calories()] *)
Definition get_spent_calories : M num := λ self,
  match lookup_mro
          (λ c, match c with
                | Training => Some Training_get_spent_calories
                | Running => Some Running_get_spent_calories
                | SportsWalking => Some SportsWalking_get_spent_calories
                | Swimming => Some Swimming_get_spent_calories
                end)
          (mro (ob_type self)) with
  | Some method => method self
  | None => (Raise (AttributeError "get_spent_calories"), self)
  end.

(** *** Training.show_training_info, inherited by every class *)

Definition Training_show_training_info : M InfoMessage :=
  name ← self_class_name;
  duration ← getattr "duration";
  distance ← get_distance;
  speed ← get_mean_speed;
  calories ← get_spent_calories;
  mret (mkInfoMessage name duration distance speed calories).

Definition show_training_info : M InfoMessage := λ self,
  match lookup_mro
          (λ c, match c with Training => Some Training_show_training_info | _ => None end)
          (mro (ob_type self)) with
  | Some method => method self
  | None => (Raise (AttributeError "show_training_info"), self)
  end.

End Homework.

(** ** Instantiation and the factory *)

(** The [__init__] a class body defines, applied to the unpacked
    positional arguments; any other number of arguments is a [TypeError]. *)
Definition own_init (c : class) : option (list num → M unit) :=
  match c with
  | Training =>
      Some (λ args, match args with
                    | [action; duration; weight] =>
                        Training_init action duration weight
                    | _ => lift (Raise TypeError)
                    end)
  | Running => None
  | SportsWalking =>
      Some (λ args, match args with
                    | [action; duration; weight; height] =>
                        SportsWalking_init action duration weight height
                    | _ => lift (Raise TypeError)
                    end)
  | Swimming =>
      Some (λ args, match args with
                    | [action; duration; weight; length_pool; count_pool] =>
                        Swimming_init action duration weight length_pool count_pool
                    | _ => lift (Raise TypeError)
                    end)
  end.

(** Calling a class on unpacked arguments: a fresh instance with an empty dictionary, initialised
    by the first [__init__] of the resolution order. *)
Definition new (c : class) (args : list num) : result object :=
  match lookup_mro own_init (mro c) with
  | Some init =>
      match init args (Object c ∅) with
      | (Ok _, self) => Ok self
      | (Raise e, _) => Raise e
      end
  | None =>
      match args with
      | [] => Ok (Object c ∅)
      | _ => Raise TypeError
      end
  end.

Definition types_training : gmap string class :=
  {[ "WLK" := SportsWalking;
     "RUN" := Running;
     "SWM" := Swimming ]}.

Definition read_package (workout_type : string) (data : list num) : result object :=
  match types_training !! workout_type with
  | Some selected => new selected data
  | None =>
      Raise (ValueError ("Unknown type of training " +:+ dquote
                         +:+ workout_type +:+ dquote))
  end.

(** [needle in haystack] on strings. *)
Definition contains (haystack needle : string) : Prop :=
  ∃ before after, haystack = before +:+ needle +:+ after.

(** ** Running the script on a package *)

(** One admissible [float.__pow__] on the inputs the program gives it:
    a square by IEEE multiplication, [OverflowError] when a finite base
    overflows.  The examples run with it; the theorems hold for any. *)
Definition sample_pow (x y : float) : result float :=
  if (y =? 2)%float then
    if is_infinity (x * x) && negb (is_infinity x) then Raise OverflowError
    else Ok (x * x)%float
  else Raise (ValueError "pow").

(** What the script computes for one package before it prints: the
    instance from the factory, then its summary.  Neither call is
    guarded, so an exception of either one ends the run. *)
Definition summary (float_pow : float → float → result float)
    (workout_type : string) (data : list num) : result InfoMessage :=
  training ← read_package workout_type data;
  eval (show_training_info float_pow) training.

(** ** Vocabulary of the statements *)

(** Step length by class, as the specification words it: 1.38 m for
    swimming, 0.65 m otherwise. *)
Definition step_length (c : class) : float :=
  if decide (c = Swimming) then 1.38%float else 0.65%float.

(** The three workout codes and the class each one stands for. *)
Definition valid_code (code : string) (c : class) : Prop :=
  (code = "RUN" ∧ c = Running)
  ∨ (code = "WLK" ∧ c = SportsWalking)
  ∨ (code = "SWM" ∧ c = Swimming).

(** Constructor parameters of a class, in positional order. *)
Definition init_params (c : class) : list string :=
  match c with
  | Training | Running => ["action"; "duration"; "weight"]
  | SportsWalking => ["action"; "duration"; "weight"; "height"]
  | Swimming => ["action"; "duration"; "weight"; "length_pool"; "count_pool"]
  end.

(** A computation that leaves [self] as it found it. *)
Definition read_only {A} (m : M A) : Prop := ∀ self, exec m self = self.

(** An outcome that raises nothing but [ZeroDivisionError] and
    [OverflowError]. *)
Definition arith_outcome {A} (r : result A) : Prop :=
  match r with
  | Ok _ => True
  | Raise e => e = ZeroDivisionError ∨ e = OverflowError
  end.

(** Instances the statements are tried on: the three sample packages
    with a float duration, an instance of the base class, a walker with
    zero duration and a walker with zero height. *)
Definition swimmer : object :=
  Object Swimming
    (list_to_map [("action", PyInt 720); ("duration", PyFloat 1);
                  ("weight", PyInt 80); ("length_pool", PyFloat 25);
                  ("count_pool", PyInt 40)]).

Definition runner : object :=
  Object Running
    (list_to_map [("action", PyInt 15000); ("duration", PyFloat 1);
                  ("weight", PyInt 75)]).

Definition walker : object :=
  Object SportsWalking
    (list_to_map [("action", PyInt 9000); ("duration", PyFloat 1);
                  ("weight", PyInt 75); ("height", PyFloat 180)]).

Definition trainee : object :=
  Object Training
    (list_to_map [("action", PyInt 9000); ("duration", PyFloat 1);
                  ("weight", PyInt 75)]).

Definition idle_walker : object :=
  Object SportsWalking
    (list_to_map [("action", PyInt 9000); ("duration", PyFloat 0);
                  ("weight", PyInt 75); ("height", PyFloat 180)]).

Definition flat_walker : object :=
  Object SportsWalking
    (list_to_map [("action", PyInt 9000); ("duration", PyFloat 1);
                  ("weight", PyInt 75); ("height", PyFloat 0)]).

(** Replace the reads of attributes of a concrete instance by their values. *)
Ltac eval_attrs :=
  repeat match goal with
         | |- context [eval (getattr ?name) ?self] =>
             let r := eval vm_compute in (eval (getattr name) self) in
             change (eval (getattr name) self) with r
         end.

(** Name the arguments an instantiation succeeded on. *)
Ltac destruct_args H :=
  cbv beta iota in H;
  repeat match type of H with
         | ∃ _, _ => destruct H as [? H]
         end;
  injection H; clear H; intros; subst.

(** ** The message of a summary, [main] and the script *)

(** [n / d] rounded to the nearest integer, ties to the even one, for a
    positive [d]. *)
Definition round_half_even (n d : Z) : Z :=
  let q := n / d in
  let r := n mod d in
  if 2 * r <? d then q
  else if d <? 2 * r then q + 1
  else if Z.even q then q else q + 1.

(** The double [m * 2^e] in thousandths, correctly rounded. *)
Definition thousandths (m : positive) (e : Z) : Z :=
  if 0 <=? e then Z.pos m * 2 ^ e * 1000
  else round_half_even (Z.pos m * 1000) (2 ^ (- e)).

(** The last decimal digit of [n]. *)
Definition digit (n : Z) : ascii := ascii_of_N (48 + Z.to_N (n mod 10)).

(** A sign, the whole part, a point and three decimals. *)
Definition fixed3 (negative : bool) (n : Z) : string :=
  (if negative then "-" else "")
  +:+ pretty (n / 1000) +:+ "."
  +:+ String (digit (n / 100)) (String (digit (n / 10)) (String (digit n) "")).

(** [format(f, '.3f')] on a double. *)
Definition float_format_3f (f : float) : string :=
  match Prim2SF f with
  | S754_zero s => fixed3 s 0
  | S754_infinity s => if s then "-inf" else "inf"
  | S754_nan => "nan"
  | S754_finite s m e => fixed3 s (thousandths m e)
  end.

(** [format(x, '.3f')]: an [int] is converted to a double first. *)
Definition format_3f (x : num) : result string :=
  float_format_3f <$> as_double x.

(** [InfoMessage.get_message]: the template filled field by field, from
    left to right.  Text is kept as its UTF-8 bytes. *)
Definition get_message (info : InfoMessage) : result string :=
  duration_text ← format_3f (duration info);
  distance_text ← format_3f (distance info);
  speed_text ← format_3f (speed info);
  calories_text ← format_3f (calories info);
  Ok ("Тип тренировки: " +:+ training_type info +:+ "; "
      +:+ "Длительность: " +:+ duration_text +:+ " ч.; "
      +:+ "Дистанция: " +:+ distance_text +:+ " км; "
      +:+ "Ср. скорость: " +:+ speed_text +:+ " км/ч; "
      +:+ "Потрачено ккал: " +:+ calories_text +:+ ".").

(** [main]: the summary of a workout, then its message on standard
    output, here the list of the lines printed so far. *)
Definition main (float_pow : float → float → result float)
    (training : object) (stdout : list string) : result () * list string :=
  match eval (show_training_info float_pow) training with
  | Ok info =>
      match get_message info with
      | Ok message => (Ok (), stdout ++ [message])
      | Raise e => (Raise e, stdout)
      end
  | Raise e => (Raise e, stdout)
  end.

(** The loop of the script over its packages. *)
Fixpoint script (float_pow : float → float → result float)
    (packages : list (string * list num)) (stdout : list string)
    : result () * list string :=
  match packages with
  | [] => (Ok (), stdout)
  | (workout_type, data) :: packages' =>
      match read_package workout_type data with
      | Ok training =>
          match main float_pow training stdout with
          | (Ok _, stdout') => script float_pow packages' stdout'
          | (Raise e, stdout') => (Raise e, stdout')
          end
      | Raise e => (Raise e, stdout)
      end
  end.

(** The packages the script is shipped with. *)
Definition packages : list (string * list num) :=
  [("SWM", [PyInt 720; PyInt 1; PyInt 80; PyInt 25; PyInt 40]);
   ("RUN", [PyInt 15000; PyInt 1; PyInt 75]);
   ("WLK", [PyInt 9000; PyInt 1; PyInt 75; PyInt 180])].

(** The line one package puts on standard output. *)
Definition line_of (float_pow : float → float → result float)
    (package : string * list num) : result string :=
  training ← read_package package.1 package.2;
  info ← eval (show_training_info float_pow) training;
  get_message info.

(** An outcome that is a float, or one of the two arithmetic errors. *)
Definition float_outcome (r : result num) : Prop :=
  match r with
  | Ok (PyFloat _) => True
  | Ok (PyInt _) => False
  | Raise e => e = ZeroDivisionError ∨ e = OverflowError
  end.

(** An outcome that is a float or [OverflowError]. *)
Definition float_or_overflow (r : result num) : Prop :=
  match r with
  | Ok (PyFloat _) => True
  | Ok (PyInt _) => False
  | Raise e => e = OverflowError
  end.

(** [float.__pow__] raises nothing but arithmetic errors on a square. *)
Definition square_raises_arith (float_pow : float → float → result float)
    : Prop :=
  ∀ x, arith_outcome (float_pow x 2%float).

(** An outcome that raises nothing but [OverflowError]. *)
Definition overflow_only {A} (r : result A) : Prop :=
  match r with
  | Ok _ => True
  | Raise e => e = OverflowError
  end.

(** The text of the error of [Training.get_spent_calories] on the base
    class. *)
Definition not_implemented_text : string :=
  "In class " +:+ dquote +:+ "Training" +:+ dquote
  +:+ " is not implemented method "
  +:+ dquote +:+ "get_spent_calories" +:+ dquote.

(** More instances to try statements on: a runner with the walker's
    action count, and a swimmer who made no stroke. *)
Definition jogger : object :=
  Object Running
    (list_to_map [("action", PyInt 9000); ("duration", PyFloat 1);
                  ("weight", PyInt 60)]).

Definition floater : object :=
  Object Swimming
    (list_to_map [("action", PyInt 0); ("duration", PyFloat 1);
                  ("weight", PyInt 80); ("length_pool", PyFloat 25);
                  ("count_pool", PyInt 40)]).

(** The three lines the script prints for its packages. *)
Definition expected_output : list string :=
  ["Тип тренировки: Swimming; Длительность: 1.000 ч.; Дистанция: 0.994 км; Ср. скорость: 1.000 км/ч; Потрачено ккал: 336.000.";
   "Тип тренировки: Running; Длительность: 1.000 ч.; Дистанция: 9.750 км; Ср. скорость: 9.750 км/ч; Потрачено ккал: 797.805.";
   "Тип тренировки: SportsWalking; Длительность: 1.000 ч.; Дистанция: 5.850 км; Ср. скорость: 5.850 км/ч; Потрачено ккал: 349.252."].

(** ** Reasoning about computations *)

Create HintDb read_only discriminated.

Lemma read_only_ret {A} (a : A) : read_only (mret a : M A).
Proof. intros self. reflexivity. Qed.

Lemma read_only_lift {A} (r : result A) : read_only (lift r).
Proof. intros self. reflexivity. Qed.

Lemma read_only_getattr name : read_only (getattr name).
Proof.
  intros self. unfold exec, getattr.
  destruct (ob_dict self !! name); [reflexivity|].
  destruct (lookup_mro _ _); reflexivity.
Qed.

Lemma read_only_self_class_name : read_only self_class_name.
Proof. intros self. reflexivity. Qed.

Lemma read_only_bind {A B} (m : M A) (k : A → M B) :
  read_only m → (∀ a, read_only (k a)) → read_only (m ≫= k).
Proof.
  intros Hm Hk self. specialize (Hm self).
  unfold exec, mbind, M_bind in *.
  destruct (m self) as [[a|e] self']; simpl in *; subst self'.
  - apply Hk.
  - reflexivity.
Qed.

Lemma read_only_binop op e1 e2 :
  read_only e1 → read_only e2 → read_only (binop op e1 e2).
Proof.
  intros H1 H2. unfold binop.
  apply read_only_bind; [assumption|]. intros x.
  apply read_only_bind; [assumption|]. intros y.
  apply read_only_lift.
Qed.

#[global] Hint Resolve read_only_ret read_only_lift read_only_getattr
  read_only_self_class_name read_only_bind read_only_binop : read_only.

Lemma eval_bind {A B} (m : M A) (k : A → M B) self :
  read_only m →
  eval (m ≫= k) self = (a ← eval m self; eval (k a) self).
Proof.
  intros Hm. specialize (Hm self).
  unfold eval, exec, mbind, M_bind, result_bind in *.
  destruct (m self) as [[a|e] self']; simpl in *; subst self'; reflexivity.
Qed.

(** Operands that only read are evaluated in the same state. *)
Lemma eval_binop op e1 e2 self :
  read_only e1 →
  eval (binop op e1 e2) self = rbinop op (eval e1 self) (eval e2 self).
Proof.
  intros H1. unfold binop, rbinop.
  rewrite eval_bind by assumption.
  destruct (eval e1 self) as [x|e]; [|reflexivity]. cbn.
  unfold eval, mbind, M_bind, result_bind, lift.
  destruct (e2 self) as [[y|e] self']; reflexivity.
Qed.

(** ** Facts about the arithmetic *)

Lemma PyLong_AsDouble_outcome z : arith_outcome (PyLong_AsDouble z).
Proof.
  unfold PyLong_AsDouble.
  destruct (binary_normalize prec emax z 0 false); simpl; auto.
Qed.

Lemma as_double_outcome x : arith_outcome (as_double x).
Proof. destruct x; simpl; [apply PyLong_AsDouble_outcome | exact I]. Qed.

Lemma long_true_divide_outcome a b : arith_outcome (long_true_divide a b).
Proof.
  unfold long_true_divide.
  destruct (b =? 0); [simpl; auto|].
  destruct (a =? 0); [exact I|].
  destruct (SFdiv_core_binary _ _ _ _ _ _) as [[m e] l].
  destruct (binary_round_aux _ _ _ _ _ _); simpl; auto.
Qed.

Lemma float_div_outcome a b : arith_outcome (float_div a b).
Proof. unfold float_div. destruct (b =? 0)%float; simpl; auto. Qed.

Lemma arith_outcome_fmap {A B} (f : A → B) (r : result A) :
  arith_outcome r → arith_outcome (f <$> r).
Proof. destruct r; exact id. Qed.

Lemma arith_outcome_bind {A B} (r : result A) (k : A → result B) :
  arith_outcome r → (∀ a, arith_outcome (k a)) → arith_outcome (r ≫= k).
Proof. destruct r as [a|e]; intros Hr Hk; [apply Hk | exact Hr]. Qed.

Lemma py_mul_outcome x y : arith_outcome (py_mul x y).
Proof.
  destruct x, y; try exact I;
    (apply arith_outcome_bind; [apply as_double_outcome|]; intros ?;
     apply arith_outcome_bind; [apply as_double_outcome|]; intros ?; exact I).
Qed.

Lemma py_add_outcome x y : arith_outcome (py_add x y).
Proof.
  destruct x, y; try exact I;
    (apply arith_outcome_bind; [apply as_double_outcome|]; intros ?;
     apply arith_outcome_bind; [apply as_double_outcome|]; intros ?; exact I).
Qed.

Lemma py_truediv_outcome x y : arith_outcome (py_truediv x y).
Proof.
  destruct x, y;
    try (apply arith_outcome_fmap, long_true_divide_outcome);
    (apply arith_outcome_bind; [apply as_double_outcome|]; intros ?;
     apply arith_outcome_bind; [apply as_double_outcome|]; intros ?;
     apply arith_outcome_fmap, float_div_outcome).
Qed.

Lemma rbinop_outcome op r1 r2 :
  (∀ x y, arith_outcome (op x y)) →
  arith_outcome r1 → arith_outcome r2 → arith_outcome (rbinop op r1 r2).
Proof.
  intros Hop H1 H2. unfold rbinop.
  apply arith_outcome_bind; [assumption|]. intros x.
  apply arith_outcome_bind; [assumption|]. intros y. apply Hop.
Qed.

(** A failed operand fails the operation. *)
Lemma rbinop_not_ok_l op r1 r2 :
  is_ok r1 = false → is_ok (rbinop op r1 r2) = false.
Proof. destruct r1; [discriminate | reflexivity]. Qed.

Lemma rbinop_not_ok_r op r1 r2 :
  is_ok r2 = false → is_ok (rbinop op r1 r2) = false.
Proof. destruct r1, r2; try discriminate; reflexivity. Qed.

Lemma not_ok_Raise {A} (r : result A) : is_ok r = false → ∃ e, r = Raise e.
Proof. destruct r; [discriminate | eauto]. Qed.

(** Division by a zero: every operand pair raises. *)
Lemma float_div_zero a b : (b =? 0)%float = true → float_div a b = Raise ZeroDivisionError.
Proof. intros Hb. unfold float_div. rewrite Hb. reflexivity. Qed.

Lemma py_truediv_float_zero a b :
  (b =? 0)%float = true →
  py_truediv (PyFloat a) (PyFloat b) = Raise ZeroDivisionError.
Proof.
  intros Hb. unfold py_truediv. cbn. rewrite (float_div_zero _ _ Hb). reflexivity.
Qed.

Lemma as_double_zero d :
  num_is_zero d = true → ∃ f, as_double d = Ok f ∧ (f =? 0)%float = true.
Proof.
  destruct d as [z|f]; intros Hz; simpl in Hz.
  - apply Z.eqb_eq in Hz as ->. eexists; split; reflexivity.
  - exists f. split; [reflexivity | exact Hz].
Qed.

Lemma py_truediv_zero x d :
  num_is_zero d = true →
  py_truediv x d = Raise ZeroDivisionError ∨ py_truediv x d = Raise OverflowError.
Proof.
  intros Hz.
  assert (∀ r : result float, arith_outcome r →
            (a ← r; b ← as_double d; PyFloat <$> float_div a b)
            = Raise ZeroDivisionError
            ∨ (a ← r; b ← as_double d; PyFloat <$> float_div a b)
              = Raise OverflowError) as Hfloat.
  { intros [a|e] Hr; [|destruct Hr as [-> | ->]; auto].
    destruct (as_double_zero d Hz) as (f & Hf & Hf0).
    left. cbn. rewrite Hf. cbn. rewrite (float_div_zero _ _ Hf0). reflexivity. }
  destruct x as [a|fa], d as [b|fb].
  - left. simpl in Hz. apply Z.eqb_eq in Hz as ->. reflexivity.
  - apply (Hfloat (as_double (PyInt a))), as_double_outcome.
  - apply (Hfloat (Ok fa)). exact I.
  - apply (Hfloat (Ok fa)). exact I.
Qed.

Lemma rbinop_truediv_zero r d :
  arith_outcome r → num_is_zero d = true →
  rbinop py_truediv r (Ok d) = Raise ZeroDivisionError
  ∨ rbinop py_truediv r (Ok d) = Raise OverflowError.
Proof.
  intros Hr Hz. destruct r as [x|e].
  - apply py_truediv_zero, Hz.
  - destruct Hr as [-> | ->]; auto.
Qed.

(** A zero stays a zero when it is divided by 100. *)
Lemma float_zero_div_100 f :
  (f =? 0)%float = true → (f / 100 =? 0)%float = true.
Proof.
  rewrite !FloatAxioms.eqb_spec, div_spec.
  destruct (Prim2SF f) as [s|s| |s m e].
  - intros _. destruct s; reflexivity.
  - intros H. exfalso. destruct s; discriminate H.
  - intros H. discriminate H.
  - intros H. exfalso. destruct s; discriminate H.
Qed.

Lemma py_truediv_zero_100 h :
  num_is_zero h = true →
  ∃ z, py_truediv h (PyInt 100) = Ok (PyFloat z) ∧ (z =? 0)%float = true.
Proof.
  destruct h as [z|f]; intros Hz; simpl in Hz.
  - apply Z.eqb_eq in Hz as ->. eexists; split; reflexivity.
  - exists (f / 100)%float. split; [|apply float_zero_div_100, Hz].
    vm_compute. reflexivity.
Qed.

(** Operations with a float operand: the other operand is converted. *)
Lemma rbinop_Ok op x y : rbinop op (Ok x) (Ok y) = op x y.
Proof. reflexivity. Qed.

Lemma rbinop_Ok_inv op r1 r2 v :
  rbinop op r1 r2 = Ok v → ∃ x y, r1 = Ok x ∧ r2 = Ok y ∧ op x y = Ok v.
Proof.
  destruct r1 as [x|]; [|discriminate]. destruct r2 as [y|]; [|discriminate].
  rewrite rbinop_Ok. eauto.
Qed.

Lemma py_mul_float_l a y b :
  as_double y = Ok b → py_mul (PyFloat a) y = Ok (PyFloat (a * b)).
Proof. intros Hy. unfold py_mul. rewrite Hy. destruct y; reflexivity. Qed.

Lemma py_mul_float_r x b a :
  as_double x = Ok a → py_mul x (PyFloat b) = Ok (PyFloat (a * b)).
Proof. intros Hx. unfold py_mul. rewrite Hx. destruct x; reflexivity. Qed.

Lemma py_add_float_l a y b :
  as_double y = Ok b → py_add (PyFloat a) y = Ok (PyFloat (a + b)).
Proof. intros Hy. unfold py_add. rewrite Hy. destruct y; reflexivity. Qed.

Lemma py_add_float_r x b a :
  as_double x = Ok a → py_add x (PyFloat b) = Ok (PyFloat (a + b)).
Proof. intros Hx. unfold py_add. rewrite Hx. destruct x; reflexivity. Qed.

Lemma py_truediv_float_l a y b :
  as_double y = Ok b → (b =? 0)%float = false →
  py_truediv (PyFloat a) y = Ok (PyFloat (a / b)).
Proof.
  intros Hy Hb. unfold py_truediv, float_div. rewrite Hy.
  destruct y; cbn; rewrite Hb; reflexivity.
Qed.

Lemma py_truediv_float_r x b a :
  as_double x = Ok a → (b =? 0)%float = false →
  py_truediv x (PyFloat b) = Ok (PyFloat (a / b)).
Proof.
  intros Hx Hb. unfold py_truediv, float_div. rewrite Hx.
  destruct x; cbn; rewrite Hb; reflexivity.
Qed.

(** Evaluate a closed formula whose operations each have a float operand. *)
Ltac float_side := first [eassumption | reflexivity].
Ltac eval_floats :=
  unfold int, flt, val;
  repeat first
    [ rewrite rbinop_Ok
    | erewrite py_mul_float_l by float_side
    | erewrite py_mul_float_r by float_side
    | erewrite py_add_float_l by float_side
    | erewrite py_add_float_r by float_side
    | erewrite py_truediv_float_l by float_side
    | erewrite py_truediv_float_r by float_side ].

(** ** The claims *)

Section Claims.

Variable float_pow : float → float → result float.

Notation "a ** b" := (rbinop (py_pow float_pow) a b)
  (at level 30, right associativity) : pyval_scope.

(** A successful instantiation fixes the number of arguments. *)
Lemma new_Ok_inv c args self :
  new c args = Ok self →
  match c with
  | Training | Running => ∃ a d w, args = [a; d; w]
  | SportsWalking => ∃ a d w h, args = [a; d; w; h]
  | Swimming => ∃ a d w lp cp, args = [a; d; w; lp; cp]
  end.
Proof.
  destruct c;
    repeat (destruct args as [|? args]; try discriminate); intros _; eauto 10.
Qed.

(** *** Method resolution *)

Lemma get_distance_resolve self : get_distance self = Training_get_distance self.
Proof. destruct self as [[] d]; reflexivity. Qed.

Lemma get_mean_speed_resolve self :
  get_mean_speed self
  = if decide (ob_type self = Swimming) then Swimming_get_mean_speed self
    else Training_get_mean_speed self.
Proof. destruct self as [[] d]; reflexivity. Qed.

Lemma get_spent_calories_resolve self :
  get_spent_calories float_pow self
  = match ob_type self with
    | Training => Training_get_spent_calories self
    | Running => Running_get_spent_calories self
    | SportsWalking => SportsWalking_get_spent_calories float_pow self
    | Swimming => Swimming_get_spent_calories self
    end.
Proof. destruct self as [[] d]; reflexivity. Qed.

Lemma show_training_info_resolve self :
  show_training_info float_pow self = Training_show_training_info float_pow self.
Proof. destruct self as [[] d]; reflexivity. Qed.

(** *** No method writes to [self] *)

Lemma read_only_Training_get_distance : read_only Training_get_distance.
Proof. unfold Training_get_distance. auto with read_only. Qed.

Lemma read_only_get_distance : read_only get_distance.
Proof.
  intros self. unfold exec. rewrite get_distance_resolve.
  apply read_only_Training_get_distance.
Qed.
#[local] Hint Resolve read_only_get_distance : read_only.

Lemma read_only_Training_get_mean_speed : read_only Training_get_mean_speed.
Proof. unfold Training_get_mean_speed. auto with read_only. Qed.

Lemma read_only_Swimming_get_mean_speed : read_only Swimming_get_mean_speed.
Proof. unfold Swimming_get_mean_speed. auto 10 with read_only. Qed.

Lemma read_only_get_mean_speed : read_only get_mean_speed.
Proof.
  intros self. unfold exec. rewrite get_mean_speed_resolve.
  case_decide;
    [ apply read_only_Swimming_get_mean_speed
    | apply read_only_Training_get_mean_speed ].
Qed.
#[local] Hint Resolve read_only_get_mean_speed : read_only.

Lemma read_only_Training_get_spent_calories :
  read_only Training_get_spent_calories.
Proof. unfold Training_get_spent_calories. auto with read_only. Qed.

Lemma read_only_Running_get_spent_calories :
  read_only Running_get_spent_calories.
Proof. unfold Running_get_spent_calories. auto 20 with read_only. Qed.

Lemma read_only_SportsWalking_get_spent_calories :
  read_only (SportsWalking_get_spent_calories float_pow).
Proof. unfold SportsWalking_get_spent_calories. auto 20 with read_only. Qed.

Lemma read_only_Swimming_get_spent_calories :
  read_only Swimming_get_spent_calories.
Proof. unfold Swimming_get_spent_calories. auto 20 with read_only. Qed.

Lemma read_only_get_spent_calories : read_only (get_spent_calories float_pow).
Proof.
  intros self. unfold exec. rewrite get_spent_calories_resolve.
  destruct (ob_type self).
  - apply read_only_Training_get_spent_calories.
  - apply read_only_Running_get_spent_calories.
  - apply read_only_SportsWalking_get_spent_calories.
  - apply read_only_Swimming_get_spent_calories.
Qed.
#[local] Hint Resolve read_only_get_spent_calories : read_only.

Lemma read_only_Training_show_training_info :
  read_only (Training_show_training_info float_pow).
Proof.
  unfold Training_show_training_info.
  repeat (apply read_only_bind; [auto with read_only | intros ?]).
  apply read_only_ret.
Qed.

Lemma read_only_show_training_info : read_only (show_training_info float_pow).
Proof.
  intros self. unfold exec. rewrite show_training_info_resolve.
  apply read_only_Training_show_training_info.
Qed.

(** *** Outcomes of the dispatched calls *)

Lemma eval_get_distance self :
  eval get_distance self
  = (eval (getattr "action") self * eval (getattr "LEN_STEP") self
     / eval (getattr "M_IN_KM") self)%pyval.
Proof.
  unfold eval at 1. rewrite get_distance_resolve. fold (eval Training_get_distance self).
  unfold Training_get_distance. rewrite !eval_binop by auto with read_only.
  reflexivity.
Qed.

Lemma eval_Training_get_mean_speed self :
  eval Training_get_mean_speed self
  = (eval get_distance self / eval (getattr "duration") self)%pyval.
Proof.
  unfold Training_get_mean_speed. rewrite !eval_binop by auto with read_only.
  reflexivity.
Qed.

Lemma eval_Swimming_get_mean_speed self :
  eval Swimming_get_mean_speed self
  = (eval (getattr "length_pool") self * eval (getattr "count_pool") self
     / eval (getattr "M_IN_KM") self / eval (getattr "duration") self)%pyval.
Proof.
  unfold Swimming_get_mean_speed. rewrite !eval_binop by auto 10 with read_only.
  reflexivity.
Qed.

Lemma eval_get_mean_speed self :
  eval get_mean_speed self
  = if decide (ob_type self = Swimming) then eval Swimming_get_mean_speed self
    else eval Training_get_mean_speed self.
Proof. unfold eval. rewrite get_mean_speed_resolve. case_decide; reflexivity. Qed.

Lemma eval_Running_get_spent_calories self :
  eval Running_get_spent_calories self
  = ((eval (getattr "CALORIES_MEAN_SPEED_MULTIPLIER") self
      * eval get_mean_speed self
      + eval (getattr "CALORIES_MEAN_SPEED_SHIFT") self)
     * eval (getattr "weight") self
     / eval (getattr "M_IN_KM") self
     * (eval (getattr "duration") self * eval (getattr "MIN_IN_H") self))%pyval.
Proof.
  unfold Running_get_spent_calories.
  rewrite !eval_binop by auto 20 with read_only. reflexivity.
Qed.

Lemma eval_SportsWalking_get_spent_calories self :
  eval (SportsWalking_get_spent_calories float_pow) self
  = ((eval (getattr "CALORIES_WEIGHT_MULTIPLIER") self * eval (getattr "weight") self
      + ((eval get_mean_speed self * eval (getattr "KMH_IN_MSEC") self) ** int 2
         / (eval (getattr "height") self / eval (getattr "CM_IN_M") self))
        * eval (getattr "CALORIES_SPEED_HEIGHT_MULTIPLIER") self
        * eval (getattr "weight") self)
     * (eval (getattr "duration") self * eval (getattr "MIN_IN_H") self))%pyval.
Proof.
  unfold SportsWalking_get_spent_calories.
  rewrite !eval_binop by auto 20 with read_only. reflexivity.
Qed.

Lemma eval_Swimming_get_spent_calories self :
  eval Swimming_get_spent_calories self
  = ((eval get_mean_speed self
      + eval (getattr "CALORIES_MEAN_SPEED_MULTIPLIER") self)
     * eval (getattr "CALORIES_WEIGHT_SHIFT") self * eval (getattr "weight") self
     * eval (getattr "duration") self)%pyval.
Proof.
  unfold Swimming_get_spent_calories.
  rewrite !eval_binop by auto 20 with read_only. reflexivity.
Qed.

Lemma eval_get_spent_calories self :
  eval (get_spent_calories float_pow) self
  = match ob_type self with
    | Training => eval Training_get_spent_calories self
    | Running => eval Running_get_spent_calories self
    | SportsWalking => eval (SportsWalking_get_spent_calories float_pow) self
    | Swimming => eval Swimming_get_spent_calories self
    end.
Proof.
  unfold eval. rewrite get_spent_calories_resolve.
  destruct (ob_type self); reflexivity.
Qed.

(** *** Closed formulas on constructed instances *)

Lemma get_distance_closed c a rest self :
  new c (a :: rest) = Ok self →
  eval get_distance self = (val a * flt (step_length c) / int 1000)%pyval.
Proof.
  intros Hnew. pose proof (new_Ok_inv _ _ _ Hnew) as Hargs.
  rewrite eval_get_distance.
  destruct c; destruct_args Hargs; injection Hnew as <-;
    eval_attrs; reflexivity.
Qed.

Lemma Training_get_mean_speed_closed c a d rest self :
  c ≠ Swimming →
  new c (a :: d :: rest) = Ok self →
  eval get_mean_speed self = (eval get_distance self / val d)%pyval.
Proof.
  intros Hc Hnew. pose proof (new_Ok_inv _ _ _ Hnew) as Hargs.
  rewrite eval_get_mean_speed.
  destruct c; try congruence; destruct_args Hargs; injection Hnew as <-;
    cbn [ob_type]; rewrite decide_False by discriminate;
    rewrite eval_Training_get_mean_speed; eval_attrs; reflexivity.
Qed.

Lemma Swimming_get_mean_speed_closed a d w lp cp self :
  new Swimming [a; d; w; lp; cp] = Ok self →
  eval get_mean_speed self = (val lp * val cp / int 1000 / val d)%pyval.
Proof.
  intros Hnew. injection Hnew as <-.
  rewrite eval_get_mean_speed. cbn [ob_type].
  rewrite decide_True by reflexivity.
  rewrite eval_Swimming_get_mean_speed. eval_attrs. reflexivity.
Qed.

Lemma Running_get_spent_calories_closed a d w self :
  new Running [a; d; w] = Ok self →
  eval (get_spent_calories float_pow) self
  = ((int 18 * eval get_mean_speed self + flt 1.79) * val w / int 1000
     * (val d * int 60))%pyval.
Proof.
  intros Hnew. injection Hnew as <-.
  rewrite eval_get_spent_calories. cbn [ob_type].
  rewrite eval_Running_get_spent_calories. eval_attrs. reflexivity.
Qed.

Lemma SportsWalking_get_spent_calories_closed a d w h self :
  new SportsWalking [a; d; w; h] = Ok self →
  eval (get_spent_calories float_pow) self
  = ((flt 0.035 * val w
      + ((eval get_mean_speed self * flt 0.278) ** int 2 / (val h / int 100))
        * flt 0.029 * val w)
     * (val d * int 60))%pyval.
Proof.
  intros Hnew. injection Hnew as <-.
  rewrite eval_get_spent_calories. cbn [ob_type].
  rewrite eval_SportsWalking_get_spent_calories. eval_attrs. reflexivity.
Qed.

Lemma Swimming_get_spent_calories_closed a d w lp cp self :
  new Swimming [a; d; w; lp; cp] = Ok self →
  eval (get_spent_calories float_pow) self
  = ((eval get_mean_speed self + flt 1.1) * int 2 * val w * val d)%pyval.
Proof.
  intros Hnew. injection Hnew as <-.
  rewrite eval_get_spent_calories. cbn [ob_type].
  rewrite eval_Swimming_get_spent_calories. eval_attrs. reflexivity.
Qed.

(** A power with a float base is a float. *)
Lemma py_pow_float_l a y b sq :
  as_double y = Ok b → float_pow a b = Ok sq →
  py_pow float_pow (PyFloat a) y = Ok (PyFloat sq).
Proof.
  intros Hy Hsq. unfold py_pow. rewrite Hy. cbn. rewrite Hsq.
  destruct y; reflexivity.
Qed.

Lemma py_pow_float_inv a y v :
  py_pow float_pow (PyFloat a) y = Ok v → ∃ sq, v = PyFloat sq.
Proof.
  unfold py_pow.
  assert ((x ← Ok a; b ← as_double y; PyFloat <$> float_pow x b) = Ok v
          → ∃ sq, v = PyFloat sq) as Hfloat.
  { cbn. destruct (as_double y) as [b|]; [|discriminate]. cbn.
    destruct (float_pow a b) as [sq|]; [|discriminate]. cbn.
    intros [= <-]. eauto. }
  destruct y; exact Hfloat.
Qed.

Lemma py_mul_float_inv x b v :
  py_mul x (PyFloat b) = Ok v → ∃ f, v = PyFloat f.
Proof.
  unfold py_mul.
  assert ((a ← as_double x; b' ← Ok b; Ok (PyFloat (a * b'))) = Ok v
          → ∃ f, v = PyFloat f) as Hfloat.
  { destruct (as_double x) as [a|]; [|discriminate]. cbn.
    intros [= <-]. eauto. }
  destruct x; exact Hfloat.
Qed.

(** *** Distance, mean speed and calories *)

(** C1: for every calculator constructed with action count [a], the
    distance is [a * stepLength / 1000], with step length 0.65 for running
    and sports walking and 1.38 for swimming; when the action count
    converts to the double [fa], the call returns the double
    [fa * stepLength / 1000]. *)
Theorem get_distance_formula c a rest self :
  new c (a :: rest) = Ok self →
  eval get_distance self = (val a * flt (step_length c) / int 1000)%pyval
  ∧ ∀ fa, as_double a = Ok fa →
      eval get_distance self = Ok (PyFloat (fa * step_length c / 1000)).
Proof.
  intros Hnew. split; [exact (get_distance_closed _ _ _ _ Hnew)|].
  intros fa Ha. rewrite (get_distance_closed _ _ _ _ Hnew).
  eval_floats. reflexivity.
Qed.

(** C2: for every Running instance with nonzero duration the calories are
    [(18 * meanSpeed() + 1.79) * weight / 1000 * (duration * 60)], where
    [meanSpeed()] is [distance() / duration]; on a float duration, with
    action count and weight that convert to doubles, the call returns
    that double. *)
Theorem Running_get_spent_calories_formula a d w self :
  num_is_zero d = false →
  new Running [a; d; w] = Ok self →
  eval (get_spent_calories float_pow) self
  = ((int 18 * eval get_mean_speed self + flt 1.79) * val w / int 1000
     * (val d * int 60))%pyval
  ∧ eval get_mean_speed self = (eval get_distance self / val d)%pyval
  ∧ ∀ fa fd fw, as_double a = Ok fa → d = PyFloat fd → as_double w = Ok fw →
      eval (get_spent_calories float_pow) self
      = Ok (PyFloat ((18 * (fa * 0.65 / 1000 / fd) + 1.79) * fw / 1000
                     * (fd * 60))).
Proof.
  intros Hd Hnew.
  pose proof (Running_get_spent_calories_closed _ _ _ _ Hnew) as Hcal.
  pose proof (Training_get_mean_speed_closed Running _ _ _ _
                ltac:(discriminate) Hnew) as Hspeed.
  split; [exact Hcal|]. split; [exact Hspeed|].
  intros fa fd fw Ha -> Hw.
  rewrite Hcal, Hspeed, (get_distance_closed _ _ _ _ Hnew).
  cbn in Hd. eval_floats. reflexivity.
Qed.

(** C3: for every SportsWalking instance with nonzero duration and nonzero
    height the calories are
    [(0.035*weight + ((meanSpeed()*0.278)^2 / (height/100)) * 0.029 * weight)
     * (duration*60)]; on float duration and height, with action count and
    weight that convert to doubles, the call returns that double once the
    square is defined and [height/100] has not underflowed to zero. *)
Theorem SportsWalking_get_spent_calories_formula a d w h self :
  num_is_zero d = false →
  num_is_zero h = false →
  new SportsWalking [a; d; w; h] = Ok self →
  eval (get_spent_calories float_pow) self
  = ((flt 0.035 * val w
      + ((eval get_mean_speed self * flt 0.278) ** int 2 / (val h / int 100))
        * flt 0.029 * val w)
     * (val d * int 60))%pyval
  ∧ eval get_mean_speed self = (eval get_distance self / val d)%pyval
  ∧ ∀ fa fd fw fh sq,
      as_double a = Ok fa → d = PyFloat fd → as_double w = Ok fw →
      h = PyFloat fh →
      float_pow (fa * 0.65 / 1000 / fd * 0.278) 2 = Ok sq →
      (fh / 100 =? 0)%float = false →
      eval (get_spent_calories float_pow) self
      = Ok (PyFloat ((0.035 * fw + sq / (fh / 100) * 0.029 * fw) * (fd * 60))).
Proof.
  intros Hd Hh Hnew.
  pose proof (SportsWalking_get_spent_calories_closed _ _ _ _ _ Hnew) as Hcal.
  pose proof (Training_get_mean_speed_closed SportsWalking _ _ _ _
                ltac:(discriminate) Hnew) as Hspeed.
  split; [exact Hcal|]. split; [exact Hspeed|].
  intros fa fd fw fh sq Ha -> Hw -> Hsq Hdiv.
  rewrite Hcal, Hspeed, (get_distance_closed _ _ _ _ Hnew).
  cbn in Hd. eval_floats.
  erewrite py_pow_float_l by float_side.
  eval_floats. reflexivity.
Qed.

(** C4: for every Swimming instance with nonzero duration the mean speed is
    [poolLength * lengthsCount / 1000 / duration]; instances that agree on
    pool length, lengths count and duration have the same mean speed,
    whatever their action counts; on float pool length and duration, with
    a lengths count that converts to a double, the call returns that
    double. *)
Theorem Swimming_get_mean_speed_formula a d w lp cp self :
  num_is_zero d = false →
  new Swimming [a; d; w; lp; cp] = Ok self →
  eval get_mean_speed self = (val lp * val cp / int 1000 / val d)%pyval
  ∧ (∀ a' w' self',
       new Swimming [a'; d; w'; lp; cp] = Ok self' →
       eval get_mean_speed self' = eval get_mean_speed self)
  ∧ ∀ fd flp fcp, d = PyFloat fd → lp = PyFloat flp → as_double cp = Ok fcp →
      eval get_mean_speed self = Ok (PyFloat (flp * fcp / 1000 / fd)).
Proof.
  intros Hd Hnew.
  pose proof (Swimming_get_mean_speed_closed _ _ _ _ _ _ Hnew) as Hspeed.
  split; [exact Hspeed|]. split.
  - intros a' w' self' Hnew'.
    rewrite (Swimming_get_mean_speed_closed _ _ _ _ _ _ Hnew'), Hspeed.
    reflexivity.
  - intros fd flp fcp -> -> Hcp. rewrite Hspeed.
    cbn in Hd. eval_floats. reflexivity.
Qed.

(** C5: for every Swimming instance with nonzero duration the calories are
    [(meanSpeed() + 1.1) * 2 * weight * duration], where [meanSpeed()] is
    the swimming override [poolLength * lengthsCount / 1000 / duration];
    on float pool length and duration, with lengths count and weight that
    convert to doubles, the call returns that double. *)
Theorem Swimming_get_spent_calories_formula a d w lp cp self :
  num_is_zero d = false →
  new Swimming [a; d; w; lp; cp] = Ok self →
  eval (get_spent_calories float_pow) self
  = ((eval get_mean_speed self + flt 1.1) * int 2 * val w * val d)%pyval
  ∧ eval get_mean_speed self = (val lp * val cp / int 1000 / val d)%pyval
  ∧ ∀ fd fw flp fcp,
      d = PyFloat fd → as_double w = Ok fw → lp = PyFloat flp →
      as_double cp = Ok fcp →
      eval (get_spent_calories float_pow) self
      = Ok (PyFloat ((flp * fcp / 1000 / fd + 1.1) * 2 * fw * fd)).
Proof.
  intros Hd Hnew.
  pose proof (Swimming_get_spent_calories_closed _ _ _ _ _ _ Hnew) as Hcal.
  pose proof (Swimming_get_mean_speed_closed _ _ _ _ _ _ Hnew) as Hspeed.
  split; [exact Hcal|]. split; [exact Hspeed|].
  intros fd fw flp fcp -> Hw -> Hcp. rewrite Hcal, Hspeed.
  cbn in Hd. eval_floats. reflexivity.
Qed.

(** *** The factory *)

Lemma types_training_lookup code c :
  types_training !! code = Some c ↔ valid_code code c.
Proof.
  unfold types_training, valid_code.
  rewrite !lookup_insert, lookup_singleton.
  destruct (decide ("WLK" = code)) as [<-|];
    [|destruct (decide ("RUN" = code)) as [<-|];
      [|destruct (decide ("SWM" = code)) as [<-|]]];
    split; intros H; try discriminate H;
    try (injection H as <-); intuition (try discriminate; congruence).
Qed.

Lemma new_arity c data :
  length data = length (init_params c) →
  new c data = Ok (Object c (list_to_map (zip (init_params c) data))).
Proof.
  destruct c;
    repeat (destruct data as [|? data]; try discriminate); intros _; reflexivity.
Qed.

Lemma new_wrong_arity c data :
  length data ≠ length (init_params c) → new c data = Raise TypeError.
Proof.
  destruct c;
    repeat (destruct data as [|? data]; try reflexivity); intros []; reflexivity.
Qed.

Lemma read_package_unknown code data :
  types_training !! code = None →
  ∃ msg, read_package code data = Raise (ValueError msg) ∧ contains msg code.
Proof.
  intros Hcode. unfold read_package. rewrite Hcode.
  eexists. split; [reflexivity|].
  exists ("Unknown type of training " +:+ dquote), dquote. reflexivity.
Qed.

(** C6, amended: a valid code with as many values as the constructor of
    its class takes (3 for running, 4 for sports walking, 5 for swimming)
    yields an instance of that class holding the values under the
    constructor's parameter names, in positional order; a valid code with
    any other number of values raises the constructor's [TypeError]; every
    other code raises [ValueError] with the code inside its message, and
    the script's call of the factory ends with that error. *)
Theorem read_package_spec code data :
  (∀ c, valid_code code c →
     length data = length (init_params c) →
     ∃ self, read_package code data = Ok self
             ∧ ob_type self = c
             ∧ ob_dict self = list_to_map (zip (init_params c) data))
  ∧ (∀ c, valid_code code c →
       length data ≠ length (init_params c) →
       read_package code data = Raise TypeError)
  ∧ ((∀ c, ¬ valid_code code c) →
     ∃ msg, read_package code data = Raise (ValueError msg)
            ∧ contains msg code
            ∧ summary float_pow code data = Raise (ValueError msg)).
Proof.
  split; [|split].
  - intros c Hc Hlen. apply types_training_lookup in Hc.
    unfold read_package. rewrite Hc, (new_arity _ _ Hlen). eauto.
  - intros c Hc Hlen. apply types_training_lookup in Hc.
    unfold read_package. rewrite Hc. apply new_wrong_arity, Hlen.
  - intros Hnone.
    destruct (read_package_unknown code data) as (msg & Hmsg & Hin).
    { destruct (types_training !! code) as [c|] eqn:Hc; [|reflexivity].
      apply types_training_lookup in Hc. destruct (Hnone _ Hc). }
    exists msg. unfold summary. rewrite Hmsg. auto.
Qed.

(** *** Zero duration, zero height *)

Lemma get_mean_speed_zero_duration c a d rest self :
  new c (a :: d :: rest) = Ok self →
  num_is_zero d = true →
  eval get_mean_speed self = Raise ZeroDivisionError
  ∨ eval get_mean_speed self = Raise OverflowError.
Proof.
  intros Hnew Hd.
  destruct (decide (c = Swimming)) as [-> | Hc].
  - pose proof (new_Ok_inv _ _ _ Hnew) as Hargs. destruct_args Hargs.
    rewrite (Swimming_get_mean_speed_closed _ _ _ _ _ _ Hnew).
    apply rbinop_truediv_zero; [|exact Hd].
    repeat (apply rbinop_outcome;
            [first [exact py_mul_outcome | exact py_truediv_outcome]| |]);
      exact I.
  - rewrite (Training_get_mean_speed_closed _ _ _ _ _ Hc Hnew).
    rewrite (get_distance_closed _ _ _ _ Hnew).
    apply rbinop_truediv_zero; [|exact Hd].
    repeat (apply rbinop_outcome;
            [first [exact py_mul_outcome | exact py_truediv_outcome]| |]);
      exact I.
Qed.

Lemma rbinop_truediv_zero_not_ok r q :
  num_is_zero q = true → is_ok (rbinop py_truediv r (Ok q)) = false.
Proof.
  intros Hq. destruct r as [x|e]; [|reflexivity].
  rewrite rbinop_Ok. destruct (py_truediv_zero x q Hq) as [-> | ->]; reflexivity.
Qed.

(** C7, amended: with a zero duration the mean speed of every calculator
    raises instead of returning a number, [ZeroDivisionError] or, when an
    integer operand is too large for a double, [OverflowError]; with a
    zero height the calories of a SportsWalking instance raise as well,
    [ZeroDivisionError] whenever the weight term and the squared speed
    before the division are defined. *)
Theorem zero_divisor_raises c a d rest self :
  new c (a :: d :: rest) = Ok self →
  (num_is_zero d = true →
   eval get_mean_speed self = Raise ZeroDivisionError
   ∨ eval get_mean_speed self = Raise OverflowError)
  ∧ (∀ w h, c = SportsWalking → rest = [w; h] → num_is_zero h = true →
       (∃ e, eval (get_spent_calories float_pow) self = Raise e)
       ∧ ∀ wt sq,
           (flt 0.035 * val w)%pyval = Ok wt →
           ((eval get_mean_speed self * flt 0.278) ** int 2)%pyval = Ok sq →
           eval (get_spent_calories float_pow) self = Raise ZeroDivisionError).
Proof.
  intros Hnew. split; [apply (get_mean_speed_zero_duration _ _ _ _ _ Hnew)|].
  intros w h -> -> Hh.
  rewrite (SportsWalking_get_spent_calories_closed _ _ _ _ _ Hnew).
  destruct (py_truediv_zero_100 h Hh) as (z & Hdiv & Hz).
  replace (val h / int 100)%pyval with (Ok (PyFloat z))
    by (symmetry; exact Hdiv).
  split.
  - apply not_ok_Raise.
    apply rbinop_not_ok_l, rbinop_not_ok_r, rbinop_not_ok_l, rbinop_not_ok_l.
    apply rbinop_truediv_zero_not_ok. exact Hz.
  - intros wt sq -> Hsq. rewrite Hsq.
    assert (∃ f, sq = PyFloat f) as [f ->].
    { apply rbinop_Ok_inv in Hsq as (x & y & Hx & _ & Hpow).
      apply rbinop_Ok_inv in Hx as (ms & k & _ & [= <-] & Hmul).
      destruct (py_mul_float_inv _ _ _ Hmul) as [b ->].
      exact (py_pow_float_inv _ _ _ Hpow). }
    rewrite rbinop_Ok.
    rewrite (py_truediv_float_zero f z Hz). reflexivity.
Qed.

(** *** The base class *)

(** C8: on every instance of the base class [Training] the calories call
    raises [NotImplementedError], naming the class and the method; it
    returns no value and leaves the instance as it was. *)
Theorem Training_get_spent_calories_not_implemented self :
  ob_type self = Training →
  get_spent_calories float_pow self
  = (Raise (NotImplementedError
              ("In class " +:+ dquote +:+ "Training" +:+ dquote
               +:+ " is not implemented method "
               +:+ dquote +:+ "get_spent_calories" +:+ dquote)),
     self)
  ∧ ∀ v, eval (get_spent_calories float_pow) self ≠ Ok v.
Proof.
  intros Hclass.
  assert (get_spent_calories float_pow self
          = (Raise (NotImplementedError
                      ("In class " +:+ dquote +:+ "Training" +:+ dquote
                       +:+ " is not implemented method "
                       +:+ dquote +:+ "get_spent_calories" +:+ dquote)),
             self)) as Hraise.
  { rewrite get_spent_calories_resolve, Hclass.
    unfold Training_get_spent_calories, self_class_name, mbind, M_bind, lift.
    rewrite Hclass. reflexivity. }
  split; [exact Hraise|].
  intros v. unfold eval. rewrite Hraise. discriminate.
Qed.

(** *** The summary *)

(** C9: two calls of the summary in succession on one calculator yield two
    records with the same five fields: whenever one call yields a record,
    two calls yield that record twice. *)
Theorem show_training_info_twice self :
  eval (first ← show_training_info float_pow;
        second ← show_training_info float_pow;
        mret (first, second)) self
  = (info ← eval (show_training_info float_pow) self; Ok (info, info))
  ∧ ∀ first second,
      eval (first ← show_training_info float_pow;
            second ← show_training_info float_pow;
            mret (first, second)) self = Ok (first, second) →
      training_type first = training_type second
      ∧ duration first = duration second
      ∧ distance first = distance second
      ∧ speed first = speed second
      ∧ calories first = calories second.
Proof.
  assert (eval (first ← show_training_info float_pow;
                second ← show_training_info float_pow;
                mret (first, second)) self
          = (info ← eval (show_training_info float_pow) self; Ok (info, info)))
    as Htwice.
  { rewrite eval_bind by apply read_only_show_training_info.
    destruct (eval (show_training_info float_pow) self) as [info|e] eqn:Hinfo;
      [|reflexivity].
    cbn. rewrite eval_bind by apply read_only_show_training_info.
    rewrite Hinfo. reflexivity. }
  split; [exact Htwice|].
  intros first second. rewrite Htwice.
  destruct (eval (show_training_info float_pow) self) as [info|e];
    [|discriminate].
  intros [= <- <-]. repeat split.
Qed.

(** C10: the summary leaves the calculator as it was: the instance after
    the call is the instance before it, so every stored field (action,
    duration, weight, height, length_pool, count_pool) keeps its value. *)
Theorem show_training_info_frame self :
  exec (show_training_info float_pow) self = self
  ∧ ∀ name,
      ob_dict (exec (show_training_info float_pow) self) !! name
      = ob_dict self !! name.
Proof.
  pose proof (read_only_show_training_info self) as Hself.
  split; [exact Hself|]. intros name. rewrite Hself. reflexivity.
Qed.

End Claims.

(** ** The sample packages, and the theorems at concrete inputs *)

Example summary_SWM :
  summary sample_pow "SWM" [PyInt 720; PyInt 1; PyInt 80; PyInt 25; PyInt 40]
  = Ok (mkInfoMessage "Swimming" (PyInt 1)
          (PyFloat 0.99359999999999993) (PyFloat 1) (PyFloat 336)).
Proof. vm_compute. reflexivity. Qed.

Example summary_RUN :
  summary sample_pow "RUN" [PyInt 15000; PyInt 1; PyInt 75]
  = Ok (mkInfoMessage "Running" (PyInt 1)
          (PyFloat 9.75) (PyFloat 9.75) (PyFloat 797.80499999999995)).
Proof. vm_compute. reflexivity. Qed.

Example summary_WLK :
  summary sample_pow "WLK" [PyInt 9000; PyInt 1; PyInt 75; PyInt 180]
  = Ok (mkInfoMessage "SportsWalking" (PyInt 1)
          (PyFloat 5.8499999999999996) (PyFloat 5.8499999999999996)
          (PyFloat 349.2517475250001)).
Proof. vm_compute. reflexivity. Qed.

(** A subnormal height is not zero, yet [height / 100] is. *)
Example summary_WLK_tiny_height :
  num_is_zero (PyFloat 5e-324) = false
  ∧ summary sample_pow "WLK" [PyInt 9000; PyInt 1; PyInt 75; PyFloat 5e-324]
    = Raise ZeroDivisionError.
Proof. split; vm_compute; reflexivity. Qed.

(** An action count beyond the range of a double. *)
Example summary_RUN_huge_action :
  summary sample_pow "RUN" [PyInt (10 ^ 400); PyInt 1; PyInt 75] = Raise OverflowError.
Proof. vm_compute. reflexivity. Qed.

Lemma get_distance_formula_witness :
  new Swimming [PyInt 720; PyFloat 1; PyInt 80; PyFloat 25; PyInt 40] = Ok swimmer
  ∧ eval get_distance swimmer = Ok (PyFloat 0.99359999999999993).
Proof.
  split; [reflexivity|].
  exact (proj2 (get_distance_formula Swimming (PyInt 720)
                  [PyFloat 1; PyInt 80; PyFloat 25; PyInt 40] swimmer eq_refl)
           720%float eq_refl).
Defined.

Lemma Running_get_spent_calories_formula_witness :
  num_is_zero (PyFloat 1) = false
  ∧ new Running [PyInt 15000; PyFloat 1; PyInt 75] = Ok runner
  ∧ eval (get_spent_calories sample_pow) runner
    = Ok (PyFloat 797.80499999999995).
Proof.
  split; [reflexivity|]. split; [reflexivity|].
  exact (proj2 (proj2 (Running_get_spent_calories_formula sample_pow
                         (PyInt 15000) (PyFloat 1) (PyInt 75) runner
                         eq_refl eq_refl))
           15000%float 1%float 75%float eq_refl eq_refl eq_refl).
Defined.

Lemma SportsWalking_get_spent_calories_formula_witness :
  num_is_zero (PyFloat 1) = false
  ∧ num_is_zero (PyFloat 180) = false
  ∧ new SportsWalking [PyInt 9000; PyFloat 1; PyInt 75; PyFloat 180] = Ok walker
  ∧ eval (get_spent_calories sample_pow) walker
    = Ok (PyFloat 349.2517475250001).
Proof.
  split; [reflexivity|]. split; [reflexivity|]. split; [reflexivity|].
  exact (proj2 (proj2 (SportsWalking_get_spent_calories_formula sample_pow
                         (PyInt 9000) (PyFloat 1) (PyInt 75) (PyFloat 180)
                         walker eq_refl eq_refl eq_refl))
           9000%float 1%float 75%float 180%float
           (9000 * 0.65 / 1000 / 1 * 0.278 * (9000 * 0.65 / 1000 / 1 * 0.278))%float
           eq_refl eq_refl eq_refl eq_refl eq_refl eq_refl).
Defined.

Lemma Swimming_get_mean_speed_formula_witness :
  num_is_zero (PyFloat 1) = false
  ∧ new Swimming [PyInt 720; PyFloat 1; PyInt 80; PyFloat 25; PyInt 40] = Ok swimmer
  ∧ eval get_mean_speed swimmer = Ok (PyFloat 1).
Proof.
  split; [reflexivity|]. split; [reflexivity|].
  exact (proj2 (proj2 (Swimming_get_mean_speed_formula
                         (PyInt 720) (PyFloat 1) (PyInt 80) (PyFloat 25)
                         (PyInt 40) swimmer eq_refl eq_refl))
           1%float 25%float 40%float eq_refl eq_refl eq_refl).
Defined.

Lemma Swimming_get_spent_calories_formula_witness :
  num_is_zero (PyFloat 1) = false
  ∧ new Swimming [PyInt 720; PyFloat 1; PyInt 80; PyFloat 25; PyInt 40] = Ok swimmer
  ∧ eval (get_spent_calories sample_pow) swimmer = Ok (PyFloat 336).
Proof.
  split; [reflexivity|]. split; [reflexivity|].
  exact (proj2 (proj2 (Swimming_get_spent_calories_formula sample_pow
                         (PyInt 720) (PyFloat 1) (PyInt 80) (PyFloat 25)
                         (PyInt 40) swimmer eq_refl eq_refl))
           1%float 80%float 25%float 40%float
           eq_refl eq_refl eq_refl eq_refl).
Defined.

(** C6 as stated fails: a valid code does not make the factory return. *)
Lemma read_package_wrong_arity :
  read_package "RUN" [PyInt 15000; PyInt 1] = Raise TypeError
  ∧ ¬ ∃ self, read_package "RUN" [PyInt 15000; PyInt 1] = Ok self
              ∧ ob_type self = Running.
Proof. split; [reflexivity|]. intros (self & Hself & _). discriminate Hself. Qed.

Lemma read_package_spec_witness :
  valid_code "SWM" Swimming
  ∧ ∃ self,
      read_package "SWM" [PyInt 720; PyFloat 1; PyInt 80; PyFloat 25; PyInt 40]
      = Ok self
      ∧ ob_type self = Swimming
      ∧ ob_dict self = ob_dict swimmer.
Proof.
  assert (valid_code "SWM" Swimming) as Hcode
    by (right; right; split; reflexivity).
  split; [exact Hcode|].
  exact (proj1 (read_package_spec sample_pow "SWM"
                  [PyInt 720; PyFloat 1; PyInt 80; PyFloat 25; PyInt 40])
           Swimming Hcode eq_refl).
Defined.

(** C7 as stated fails: a zero duration raises, no infinity is returned. *)
Lemma zero_duration_raises :
  ∃ self,
    read_package "RUN" [PyInt 15000; PyFloat 0; PyInt 75] = Ok self
    ∧ eval get_mean_speed self = Raise ZeroDivisionError
    ∧ ¬ ∃ v, eval get_mean_speed self = Ok v.
Proof.
  eexists. split; [reflexivity|]. split; [vm_compute; reflexivity|].
  intros [v Hv]. vm_compute in Hv. discriminate Hv.
Qed.

Lemma zero_divisor_raises_witness :
  (new SportsWalking [PyInt 9000; PyFloat 0; PyInt 75; PyFloat 180]
   = Ok idle_walker
   ∧ num_is_zero (PyFloat 0) = true
   ∧ (eval get_mean_speed idle_walker = Raise ZeroDivisionError
      ∨ eval get_mean_speed idle_walker = Raise OverflowError))
  ∧ (new SportsWalking [PyInt 9000; PyFloat 1; PyInt 75; PyFloat 0]
     = Ok flat_walker
     ∧ eval (get_spent_calories sample_pow) flat_walker
       = Raise ZeroDivisionError).
Proof.
  split; (split; [reflexivity|]).
  - split; [reflexivity|].
    exact (proj1 (zero_divisor_raises sample_pow SportsWalking
                    (PyInt 9000) (PyFloat 0) [PyInt 75; PyFloat 180]
                    idle_walker eq_refl)
             eq_refl).
  - exact (proj2 (proj2 (zero_divisor_raises sample_pow SportsWalking
                           (PyInt 9000) (PyFloat 1) [PyInt 75; PyFloat 0]
                           flat_walker eq_refl)
                    (PyInt 75) (PyFloat 0) eq_refl eq_refl eq_refl)
             (PyFloat (0.035 * 75))
             (PyFloat (9000 * 0.65 / 1000 / 1 * 0.278
                       * (9000 * 0.65 / 1000 / 1 * 0.278)))
             eq_refl eq_refl).
Defined.

Lemma Training_get_spent_calories_not_implemented_witness :
  new Training [PyInt 9000; PyFloat 1; PyInt 75] = Ok trainee
  ∧ ob_type trainee = Training
  ∧ ∀ v, eval (get_spent_calories sample_pow) trainee ≠ Ok v.
Proof.
  split; [reflexivity|]. split; [reflexivity|].
  exact (proj2 (Training_get_spent_calories_not_implemented sample_pow
                  trainee eq_refl)).
Defined.

Lemma show_training_info_twice_witness :
  eval (first ← show_training_info sample_pow;
        second ← show_training_info sample_pow;
        mret (first, second)) walker
  = Ok (mkInfoMessage "SportsWalking" (PyFloat 1)
          (PyFloat 5.8499999999999996) (PyFloat 5.8499999999999996)
          (PyFloat 349.2517475250001),
        mkInfoMessage "SportsWalking" (PyFloat 1)
          (PyFloat 5.8499999999999996) (PyFloat 5.8499999999999996)
          (PyFloat 349.2517475250001)).
Proof. exact (proj1 (show_training_info_twice sample_pow walker)). Defined.

(** ** Further properties of the code *)

(** Name the arguments of an instantiation given as a whole list. *)
Ltac subst_args H :=
  cbv beta iota in H;
  repeat match type of H with
         | ∃ _, _ => destruct H as [? H]
         end;
  subst.

(** *** Outcomes are floats *)

Lemma float_outcome_arith r : float_outcome r → arith_outcome r.
Proof. destruct r as [[]|]; simpl; auto. Qed.

Lemma float_or_overflow_float_outcome r : float_or_overflow r → float_outcome r.
Proof. destruct r as [[]|]; simpl; auto. Qed.

Lemma float_outcome_bind_float (r : result float) (k : float → result num) :
  arith_outcome r → (∀ a, float_outcome (k a)) → float_outcome (r ≫= k).
Proof. destruct r as [a|e]; intros Hr Hk; [apply Hk | exact Hr]. Qed.

Lemma float_outcome_fmap (r : result float) :
  arith_outcome r → float_outcome (PyFloat <$> r).
Proof. destruct r; exact id. Qed.

(** A product or a sum with a float operand is a float. *)
Lemma py_mul_float_outcome_l a y : float_outcome (py_mul (PyFloat a) y).
Proof.
  destruct y;
    (apply float_outcome_bind_float; [exact I|]; intros ?;
     apply float_outcome_bind_float; [apply as_double_outcome|]; intros ?;
     exact I).
Qed.

Lemma py_mul_float_outcome_r x b : float_outcome (py_mul x (PyFloat b)).
Proof.
  destruct x;
    (apply float_outcome_bind_float; [apply as_double_outcome|]; intros ?;
     apply float_outcome_bind_float; [exact I|]; intros ?; exact I).
Qed.

Lemma py_add_float_outcome_l a y : float_outcome (py_add (PyFloat a) y).
Proof.
  destruct y;
    (apply float_outcome_bind_float; [exact I|]; intros ?;
     apply float_outcome_bind_float; [apply as_double_outcome|]; intros ?;
     exact I).
Qed.

Lemma py_add_float_outcome_r x b : float_outcome (py_add x (PyFloat b)).
Proof.
  destruct x;
    (apply float_outcome_bind_float; [apply as_double_outcome|]; intros ?;
     apply float_outcome_bind_float; [exact I|]; intros ?; exact I).
Qed.

(** A true division is a float, whatever its operands. *)
Lemma py_truediv_float_outcome x y : float_outcome (py_truediv x y).
Proof.
  destruct x, y;
    try (apply float_outcome_fmap, long_true_divide_outcome);
    (apply float_outcome_bind_float; [apply as_double_outcome|]; intros ?;
     apply float_outcome_bind_float; [apply as_double_outcome|]; intros ?;
     apply float_outcome_fmap, float_div_outcome).
Qed.

Lemma rbinop_mul_float_outcome_l r1 r2 :
  float_outcome r1 → arith_outcome r2 → float_outcome (rbinop py_mul r1 r2).
Proof.
  destruct r1 as [[|a]|e]; try (intros []; fail); [|exact (λ H _, H)].
  intros _. destruct r2 as [y|e]; [|exact id].
  intros _. apply py_mul_float_outcome_l.
Qed.

Lemma rbinop_mul_float_outcome_r r1 r2 :
  arith_outcome r1 → float_outcome r2 → float_outcome (rbinop py_mul r1 r2).
Proof.
  destruct r1 as [x|e]; [|exact (λ H _, H)].
  intros _. destruct r2 as [[|b]|e]; try (intros []; fail); [|exact id].
  intros _. apply py_mul_float_outcome_r.
Qed.

Lemma rbinop_add_float_outcome_l r1 r2 :
  float_outcome r1 → arith_outcome r2 → float_outcome (rbinop py_add r1 r2).
Proof.
  destruct r1 as [[|a]|e]; try (intros []; fail); [|exact (λ H _, H)].
  intros _. destruct r2 as [y|e]; [|exact id].
  intros _. apply py_add_float_outcome_l.
Qed.

Lemma rbinop_truediv_float_outcome r1 r2 :
  arith_outcome r1 → arith_outcome r2 →
  float_outcome (rbinop py_truediv r1 r2).
Proof.
  destruct r1 as [x|e]; [|exact (λ H _, H)].
  intros _. destruct r2 as [y|e]; [|exact id].
  intros _. apply py_truediv_float_outcome.
Qed.

Create HintDb float_outcome.

#[local] Hint Resolve float_outcome_arith rbinop_mul_float_outcome_l
  rbinop_mul_float_outcome_r rbinop_add_float_outcome_l
  rbinop_truediv_float_outcome rbinop_outcome py_mul_outcome
  py_add_outcome py_truediv_outcome : float_outcome.

Lemma float_outcome_flt f : float_outcome (flt f).
Proof. exact I. Qed.

Lemma arith_outcome_val x : arith_outcome (val x).
Proof. exact I. Qed.

Lemma arith_outcome_int z : arith_outcome (int z).
Proof. exact I. Qed.

#[local] Hint Resolve float_outcome_flt arith_outcome_val arith_outcome_int
  : float_outcome.

Section Extras.

Variable float_pow : float → float → result float.

Notation "a ** b" := (rbinop (py_pow float_pow) a b)
  (at level 30, right associativity) : pyval_scope.

Lemma rbinop_pow_float_outcome r :
  square_raises_arith float_pow → float_outcome r → float_outcome (r ** int 2)%pyval.
Proof.
  intros Hpow. destruct r as [[|a]|e]; try (intros []; fail); [|exact id].
  intros _. unfold int. rewrite rbinop_Ok.
  change (float_outcome (PyFloat <$> float_pow a 2)).
  apply float_outcome_fmap, Hpow.
Qed.

Lemma new_ob_type c args self : new c args = Ok self → ob_type self = c.
Proof.
  intros Hnew. pose proof (new_Ok_inv _ _ _ Hnew) as Hargs.
  destruct c; subst_args Hargs; injection Hnew as <-; reflexivity.
Qed.

Lemma get_distance_float_outcome c args self :
  new c args = Ok self → float_outcome (eval get_distance self).
Proof.
  intros Hnew.
  assert (∃ a rest, args = a :: rest) as (a & rest & ->).
  { pose proof (new_Ok_inv _ _ _ Hnew) as Hargs.
    destruct c; subst_args Hargs; eauto. }
  rewrite (get_distance_closed _ _ _ _ Hnew). auto 10 with float_outcome.
Qed.

Lemma get_mean_speed_float_outcome c args self :
  new c args = Ok self → float_outcome (eval get_mean_speed self).
Proof.
  intros Hnew. destruct (decide (c = Swimming)) as [-> | Hc].
  - pose proof (new_Ok_inv _ _ _ Hnew) as Hargs. subst_args Hargs.
    rewrite (Swimming_get_mean_speed_closed _ _ _ _ _ _ Hnew).
    auto 10 with float_outcome.
  - assert (∃ a d rest, args = a :: d :: rest) as (a & d & rest & ->).
    { pose proof (new_Ok_inv _ _ _ Hnew) as Hargs.
      destruct c; subst_args Hargs; eauto. }
    rewrite (Training_get_mean_speed_closed _ _ _ _ _ Hc Hnew).
    pose proof (get_distance_float_outcome _ _ _ Hnew).
    auto 10 with float_outcome.
Qed.

Lemma get_spent_calories_float_outcome c args self :
  square_raises_arith float_pow → c ≠ Training →
  new c args = Ok self →
  float_outcome (eval (get_spent_calories float_pow) self).
Proof.
  intros Hpow Hc Hnew.
  pose proof (get_mean_speed_float_outcome _ _ _ Hnew) as Hspeed.
  pose proof (new_Ok_inv _ _ _ Hnew) as Hargs.
  destruct c; try congruence; subst_args Hargs.
  - rewrite (Running_get_spent_calories_closed _ _ _ _ _ Hnew).
    auto 20 with float_outcome.
  - rewrite (SportsWalking_get_spent_calories_closed _ _ _ _ _ _ Hnew).
    apply rbinop_mul_float_outcome_l; [|auto with float_outcome].
    apply rbinop_add_float_outcome_l; [auto with float_outcome|].
    apply float_outcome_arith.
    apply rbinop_mul_float_outcome_l; [|auto with float_outcome].
    apply rbinop_mul_float_outcome_l; [|auto with float_outcome].
    apply rbinop_truediv_float_outcome; [|auto with float_outcome].
    apply float_outcome_arith, rbinop_pow_float_outcome; [assumption|].
    auto with float_outcome.
  - rewrite (Swimming_get_spent_calories_closed _ _ _ _ _ _ _ Hnew).
    auto 20 with float_outcome.
Qed.

(** *** What a summary holds *)

Lemma eval_show_training_info self :
  eval (show_training_info float_pow) self
  = (d ← eval (getattr "duration") self;
     x ← eval get_distance self;
     v ← eval get_mean_speed self;
     k ← eval (get_spent_calories float_pow) self;
     Ok (mkInfoMessage (class_name (ob_type self)) d x v k)).
Proof.
  unfold eval at 1. rewrite show_training_info_resolve.
  fold (eval (Training_show_training_info float_pow) self).
  unfold Training_show_training_info.
  rewrite eval_bind by apply read_only_self_class_name.
  change (eval self_class_name self) with (Ok (class_name (ob_type self))).
  cbn [mbind result_bind].
  rewrite eval_bind by apply read_only_getattr.
  destruct (eval (getattr "duration") self) as [d|]; [|reflexivity].
  cbn [mbind result_bind].
  rewrite eval_bind by apply read_only_get_distance.
  destruct (eval get_distance self) as [x|]; [|reflexivity].
  cbn [mbind result_bind].
  rewrite eval_bind by apply read_only_get_mean_speed.
  destruct (eval get_mean_speed self) as [v|]; [|reflexivity].
  cbn [mbind result_bind].
  rewrite eval_bind by apply read_only_get_spent_calories.
  destruct (eval (get_spent_calories float_pow) self) as [k|]; reflexivity.
Qed.

(** X1: the summary returns a record exactly when the duration read and
    the three computations return, and the record then holds the class
    name and those four values. *)
Theorem show_training_info_fields self info :
  eval (show_training_info float_pow) self = Ok info
  ↔ training_type info = class_name (ob_type self)
    ∧ eval (getattr "duration") self = Ok (duration info)
    ∧ eval get_distance self = Ok (distance info)
    ∧ eval get_mean_speed self = Ok (speed info)
    ∧ eval (get_spent_calories float_pow) self = Ok (calories info).
Proof.
  rewrite eval_show_training_info. split.
  - destruct (eval (getattr "duration") self) as [d|]; [|discriminate].
    destruct (eval get_distance self) as [x|]; [|discriminate].
    destruct (eval get_mean_speed self) as [v|]; [|discriminate].
    destruct (eval (get_spent_calories float_pow) self) as [k|];
      [|discriminate].
    intros [= <-]. repeat split.
  - intros (Hname & -> & -> & -> & ->). destruct info; simpl in *.
    rewrite Hname. reflexivity.
Qed.

(** X2: on every instance a constructor returns, distance and mean speed
    return a float or raise [ZeroDivisionError] or [OverflowError], and so
    do the calories of the three concrete classes: never an [int], never
    an attribute or not-implemented error. *)
Theorem methods_return_floats c args self :
  new c args = Ok self →
  float_outcome (eval get_distance self)
  ∧ float_outcome (eval get_mean_speed self)
  ∧ (c ≠ Training → square_raises_arith float_pow →
     float_outcome (eval (get_spent_calories float_pow) self)).
Proof.
  intros Hnew. split; [|split].
  - exact (get_distance_float_outcome _ _ _ Hnew).
  - exact (get_mean_speed_float_outcome _ _ _ Hnew).
  - intros Hc Hpow. exact (get_spent_calories_float_outcome _ _ _ Hpow Hc Hnew).
Qed.

(** *** The base class *)

Lemma Training_get_spent_calories_raises self :
  ob_type self = Training →
  eval (get_spent_calories float_pow) self
  = Raise (NotImplementedError not_implemented_text).
Proof.
  intros Hclass. unfold eval. rewrite get_spent_calories_resolve, Hclass.
  unfold Training_get_spent_calories, self_class_name, mbind, M_bind, lift.
  rewrite Hclass. reflexivity.
Qed.

(** X3: the summary of an instance of the base class never returns a
    record; once duration, distance and mean speed are read it raises the
    [NotImplementedError] of the calories. *)
Theorem Training_show_training_info_raises self :
  ob_type self = Training →
  (∀ info, eval (show_training_info float_pow) self ≠ Ok info)
  ∧ (∀ d x v,
       eval (getattr "duration") self = Ok d →
       eval get_distance self = Ok x →
       eval get_mean_speed self = Ok v →
       eval (show_training_info float_pow) self
       = Raise (NotImplementedError not_implemented_text)).
Proof.
  intros Hclass. rewrite eval_show_training_info.
  rewrite (Training_get_spent_calories_raises _ Hclass). split.
  - intros info.
    destruct (eval (getattr "duration") self); [|discriminate].
    destruct (eval get_distance self); [|discriminate].
    destruct (eval get_mean_speed self); discriminate.
  - intros d x v -> -> ->. reflexivity.
Qed.

(** *** Constructors and attributes *)

(** X4: after a successful instantiation every constructor parameter reads
    back as the argument passed in its position. *)
Theorem init_then_getattr c data self i name v :
  new c data = Ok self →
  init_params c !! i = Some name →
  data !! i = Some v →
  eval (getattr name) self = Ok v.
Proof.
  intros Hnew. pose proof (new_Ok_inv _ _ _ Hnew) as Hargs.
  destruct c; subst_args Hargs; injection Hnew as <-;
    do 5 (try destruct i as [|i]); try discriminate;
    intros [= <-] [= <-]; reflexivity.
Qed.

Lemma getattr_duration_new c args self :
  new c args = Ok self → ∃ d, eval (getattr "duration") self = Ok d.
Proof.
  intros Hnew. pose proof (new_Ok_inv _ _ _ Hnew) as Hargs.
  destruct c; subst_args Hargs; injection Hnew as <-; eexists; reflexivity.
Qed.

(** *** The factory *)

Lemma read_package_Ok_inv code data self :
  read_package code data = Ok self →
  ∃ c, valid_code code c ∧ c ≠ Training ∧ new c data = Ok self.
Proof.
  unfold read_package.
  destruct (types_training !! code) as [c|] eqn:Hc; [|discriminate].
  intros Hnew. exists c. apply types_training_lookup in Hc.
  split; [exact Hc|]. split; [|exact Hnew].
  destruct Hc as [[_ ->] | [[_ ->] | [_ ->]]]; discriminate.
Qed.

(** X5: the factory never returns an instance of the base class, and the
    summary of an instance it returns yields a record or raises
    [ZeroDivisionError] or [OverflowError], nothing else. *)
Theorem read_package_then_summary code data self :
  square_raises_arith float_pow →
  read_package code data = Ok self →
  ob_type self ≠ Training
  ∧ arith_outcome (eval (show_training_info float_pow) self).
Proof.
  intros Hpow Hself.
  destruct (read_package_Ok_inv _ _ _ Hself) as (c & _ & Hc & Hnew).
  split; [rewrite (new_ob_type _ _ _ Hnew); exact Hc|].
  rewrite eval_show_training_info.
  destruct (getattr_duration_new _ _ _ Hnew) as [d ->].
  pose proof (get_distance_float_outcome _ _ _ Hnew) as Hx.
  pose proof (get_mean_speed_float_outcome _ _ _ Hnew) as Hv.
  pose proof (get_spent_calories_float_outcome _ _ _ Hpow Hc Hnew) as Hk.
  apply float_outcome_arith in Hx, Hv, Hk.
  destruct (eval get_distance self); [|exact Hx].
  destruct (eval get_mean_speed self); [|exact Hv].
  destruct (eval (get_spent_calories float_pow) self); [exact I | exact Hk].
Qed.

(** *** What the results depend on *)

(** X7: running, sports walking and the base class share distance and mean
    speed: instances with the same action count and duration agree on
    both, whatever their class, weight and height. *)
Theorem distance_and_speed_inherited c c' a d rest rest' self self' :
  c ≠ Swimming → c' ≠ Swimming →
  new c (a :: d :: rest) = Ok self →
  new c' (a :: d :: rest') = Ok self' →
  eval get_distance self = eval get_distance self'
  ∧ eval get_mean_speed self = eval get_mean_speed self'.
Proof.
  intros Hc Hc' Hnew Hnew'.
  assert (eval get_distance self = eval get_distance self') as Hdist.
  { rewrite (get_distance_closed _ _ _ _ Hnew),
      (get_distance_closed _ _ _ _ Hnew').
    unfold step_length. rewrite !decide_False by assumption. reflexivity. }
  split; [exact Hdist|].
  rewrite (Training_get_mean_speed_closed _ _ _ _ _ Hc Hnew),
    (Training_get_mean_speed_closed _ _ _ _ _ Hc' Hnew'), Hdist.
  reflexivity.
Qed.

(** X8: the calories of a swimming workout do not depend on the action
    count: instances that agree on duration, weight, pool length and
    lengths count burn the same. *)
Theorem Swimming_calories_ignore_action a a' d w lp cp self self' :
  new Swimming [a; d; w; lp; cp] = Ok self →
  new Swimming [a'; d; w; lp; cp] = Ok self' →
  eval (get_spent_calories float_pow) self
  = eval (get_spent_calories float_pow) self'.
Proof.
  intros Hnew Hnew'.
  rewrite (Swimming_get_spent_calories_closed _ _ _ _ _ _ _ Hnew),
    (Swimming_get_spent_calories_closed _ _ _ _ _ _ _ Hnew'),
    (Swimming_get_mean_speed_closed _ _ _ _ _ _ Hnew),
    (Swimming_get_mean_speed_closed _ _ _ _ _ _ Hnew').
  reflexivity.
Qed.

(** *** Division by zero *)

Lemma PyLong_AsDouble_overflow_only z : overflow_only (PyLong_AsDouble z).
Proof.
  unfold PyLong_AsDouble.
  destruct (binary_normalize prec emax z 0 false); simpl; auto.
Qed.

Lemma as_double_overflow_only x : overflow_only (as_double x).
Proof. destruct x; [apply PyLong_AsDouble_overflow_only | exact I]. Qed.

Lemma py_mul_float_or_overflow_r x b : float_or_overflow (py_mul x (PyFloat b)).
Proof.
  pose proof (as_double_overflow_only x) as Hx.
  assert (float_or_overflow
            (a ← as_double x; b' ← Ok b; Ok (PyFloat (a * b')))) as Hfloat
    by (destruct (as_double x); [exact I | exact Hx]).
  destruct x; exact Hfloat.
Qed.

Lemma py_mul_overflow_only x y : overflow_only (py_mul x y).
Proof.
  pose proof (as_double_overflow_only x) as Hx.
  pose proof (as_double_overflow_only y) as Hy.
  assert (overflow_only
            (a ← as_double x; b ← as_double y; Ok (PyFloat (a * b)))) as Hfloat.
  { destruct (as_double x); [|exact Hx].
    destruct (as_double y); [exact I | exact Hy]. }
  destruct x, y; first [exact I | exact Hfloat].
Qed.

Lemma as_double_1000 : as_double (PyInt 1000) = Ok 1000%float.
Proof. reflexivity. Qed.

(** A division by the constant 1000 never divides by zero. *)
Lemma py_truediv_1000 x : float_or_overflow (py_truediv x (PyInt 1000)).
Proof.
  destruct x as [a|f].
  - unfold py_truediv, long_true_divide.
    change (1000 =? 0) with false. cbv iota.
    destruct (a =? 0); [exact I|].
    destruct (SFdiv_core_binary _ _ _ _ _ _) as [[m e] l].
    destruct (binary_round_aux _ _ _ _ _ _); simpl; auto.
  - rewrite (py_truediv_float_l f (PyInt 1000) 1000 as_double_1000 eq_refl).
    exact I.
Qed.

Lemma rbinop_truediv_1000 r :
  overflow_only r → float_or_overflow (rbinop py_truediv r (int 1000)).
Proof.
  destruct r as [x|e]; [|exact id]. intros _. apply py_truediv_1000.
Qed.

Lemma rbinop_truediv_nonzero r fd :
  (fd =? 0)%float = false →
  float_or_overflow r →
  float_or_overflow (rbinop py_truediv r (val (PyFloat fd))).
Proof.
  intros Hfd. destruct r as [[|x]|e]; try (intros []; fail); [|exact id].
  intros _. unfold val. rewrite rbinop_Ok.
  rewrite (py_truediv_float_l x (PyFloat fd) fd eq_refl Hfd). exact I.
Qed.

Lemma float_or_overflow_overflow_only r : float_or_overflow r → overflow_only r.
Proof. destruct r as [[]|]; simpl; auto. Qed.

(** X6: with a float duration that is not zero the mean speed of a
    constructed instance returns a float or raises [OverflowError]; it
    never raises [ZeroDivisionError]. *)
Theorem get_mean_speed_nonzero_duration c a fd rest self :
  (fd =? 0)%float = false →
  new c (a :: PyFloat fd :: rest) = Ok self →
  float_or_overflow (eval get_mean_speed self)
  ∧ eval get_mean_speed self ≠ Raise ZeroDivisionError.
Proof.
  intros Hfd Hnew.
  assert (float_or_overflow (eval get_mean_speed self)) as Hspeed.
  { destruct (decide (c = Swimming)) as [-> | Hc].
    - pose proof (new_Ok_inv _ _ _ Hnew) as Hargs. destruct_args Hargs.
      rewrite (Swimming_get_mean_speed_closed _ _ _ _ _ _ Hnew).
      apply rbinop_truediv_nonzero; [exact Hfd|].
      apply rbinop_truediv_1000. unfold val. rewrite rbinop_Ok.
      apply py_mul_overflow_only.
    - rewrite (Training_get_mean_speed_closed _ _ _ _ _ Hc Hnew),
        (get_distance_closed _ _ _ _ Hnew).
      apply rbinop_truediv_nonzero; [exact Hfd|].
      apply rbinop_truediv_1000, float_or_overflow_overflow_only.
      unfold val, flt. rewrite rbinop_Ok. apply py_mul_float_or_overflow_r. }
  split; [exact Hspeed|].
  intros Hzero. rewrite Hzero in Hspeed. discriminate Hspeed.
Qed.

(** *** The message *)

Lemma format_3f_overflow_only x : overflow_only (format_3f x).
Proof.
  unfold format_3f. pose proof (as_double_overflow_only x) as Hx.
  destruct (as_double x); [exact I | exact Hx].
Qed.

Lemma format_3f_Ok x f :
  as_double x = Ok f → format_3f x = Ok (float_format_3f f).
Proof. intros Hx. unfold format_3f. rewrite Hx. reflexivity. Qed.

(** X9: formatting a summary raises nothing but [OverflowError], and it
    returns the message whenever the four numbers of the record convert
    to doubles; a float field never fails. *)
Theorem get_message_returns info :
  overflow_only (get_message info)
  ∧ (∀ d x v k,
       as_double (duration info) = Ok d →
       as_double (distance info) = Ok x →
       as_double (speed info) = Ok v →
       as_double (calories info) = Ok k →
       get_message info
       = Ok ("Тип тренировки: " +:+ training_type info +:+ "; "
             +:+ "Длительность: " +:+ float_format_3f d +:+ " ч.; "
             +:+ "Дистанция: " +:+ float_format_3f x +:+ " км; "
             +:+ "Ср. скорость: " +:+ float_format_3f v +:+ " км/ч; "
             +:+ "Потрачено ккал: " +:+ float_format_3f k +:+ ".")).
Proof.
  split.
  - unfold get_message.
    pose proof (format_3f_overflow_only (duration info)) as Hd.
    pose proof (format_3f_overflow_only (distance info)) as Hx.
    pose proof (format_3f_overflow_only (speed info)) as Hv.
    pose proof (format_3f_overflow_only (calories info)) as Hk.
    destruct (format_3f (duration info)); [|exact Hd].
    destruct (format_3f (distance info)); [|exact Hx].
    destruct (format_3f (speed info)); [|exact Hv].
    destruct (format_3f (calories info)); [exact I | exact Hk].
  - intros d x v k Hd Hx Hv Hk. unfold get_message.
    rewrite (format_3f_Ok _ _ Hd), (format_3f_Ok _ _ Hx),
      (format_3f_Ok _ _ Hv), (format_3f_Ok _ _ Hk).
    reflexivity.
Qed.

Lemma float_outcome_Ok r x : float_outcome r → r = Ok x → ∃ f, x = PyFloat f.
Proof. intros Hr ->. destruct x; [destruct Hr | eauto]. Qed.

(** X10: the summary of an instance the factory returns can always be
    formatted, unless its duration is an [int] too large for a double:
    the three computed fields are floats. *)
Theorem summary_then_get_message code data self info d :
  square_raises_arith float_pow →
  read_package code data = Ok self →
  eval (show_training_info float_pow) self = Ok info →
  as_double (duration info) = Ok d →
  ∃ message, get_message info = Ok message.
Proof.
  intros Hpow Hself Hinfo Hd.
  destruct (read_package_Ok_inv _ _ _ Hself) as (c & _ & Hc & Hnew).
  rewrite eval_show_training_info in Hinfo.
  destruct (eval (getattr "duration") self) as [d'|]; [|discriminate].
  destruct (eval get_distance self) as [x|] eqn:Hx; [|discriminate].
  destruct (eval get_mean_speed self) as [v|] eqn:Hv; [|discriminate].
  destruct (eval (get_spent_calories float_pow) self) as [k|] eqn:Hk;
    [|discriminate].
  injection Hinfo as <-. simpl in Hd.
  destruct (float_outcome_Ok _ _ (get_distance_float_outcome _ _ _ Hnew) Hx)
    as [fx ->].
  destruct (float_outcome_Ok _ _ (get_mean_speed_float_outcome _ _ _ Hnew) Hv)
    as [fv ->].
  destruct (float_outcome_Ok _ _
              (get_spent_calories_float_outcome _ _ _ Hpow Hc Hnew) Hk)
    as [fk ->].
  eexists. unfold get_message. simpl.
  rewrite (format_3f_Ok _ _ Hd). reflexivity.
Qed.

(** *** Rounding to three decimals *)

Lemma round_half_even_nearest n d :
  0 < d →
  2 * Z.abs (n - round_half_even n d * d) ≤ d
  ∧ (2 * Z.abs (n - round_half_even n d * d) = d →
     Z.even (round_half_even n d) = true).
Proof.
  intros Hd. unfold round_half_even.
  pose proof (Z.div_mod n d ltac:(lia)) as Hn.
  pose proof (Z.mod_pos_bound n d Hd) as Hr.
  set (q := n / d) in *. set (r := n mod d) in *.
  assert (n - q * d = r) as Hq by lia.
  assert (n - (q + 1) * d = r - d) as Hq1 by lia.
  destruct (Z.ltb_spec (2 * r) d) as [Hlt | Hge].
  - rewrite Hq. split; [lia|]. intros Heq. lia.
  - destruct (Z.ltb_spec d (2 * r)) as [Hgt | Hle].
    + rewrite Hq1. split; [lia|]. intros Heq. lia.
    + destruct (Z.even q) eqn:Heven.
      * rewrite Hq. split; [lia | intros _; exact Heven].
      * rewrite Hq1. split; [lia|]. intros _.
        rewrite Z.add_1_r, Z.even_succ, <- Z.negb_even, Heven. reflexivity.
Qed.

(** X11: the number of thousandths printed for the double [m * 2^e] is the
    nearest integer to [1000 * m * 2^e]: exact when [e] is not negative,
    otherwise at most half a thousandth away, and even when the double
    lies half-way between two thousandths. *)
Theorem thousandths_nearest m e :
  (0 ≤ e → thousandths m e = Z.pos m * 2 ^ e * 1000)
  ∧ (e < 0 →
     2 * Z.abs (Z.pos m * 1000 - thousandths m e * 2 ^ (- e)) ≤ 2 ^ (- e)
     ∧ (2 * Z.abs (Z.pos m * 1000 - thousandths m e * 2 ^ (- e)) = 2 ^ (- e) →
        Z.even (thousandths m e) = true)).
Proof.
  unfold thousandths. split.
  - intros He. destruct (Z.leb_spec 0 e); [reflexivity | lia].
  - intros He. destruct (Z.leb_spec 0 e); [lia|].
    apply round_half_even_nearest, Z.pow_pos_nonneg; lia.
Qed.

(** *** The script *)

Lemma main_line training stdout :
  main float_pow training stdout
  = match (info ← eval (show_training_info float_pow) training;
           get_message info) with
    | Ok message => (Ok (), stdout ++ [message])
    | Raise e => (Raise e, stdout)
    end.
Proof.
  unfold main.
  destruct (eval (show_training_info float_pow) training) as [info|];
    reflexivity.
Qed.

Lemma script_cons package packages' stdout :
  script float_pow (package :: packages') stdout
  = match line_of float_pow package with
    | Ok message => script float_pow packages' (stdout ++ [message])
    | Raise e => (Raise e, stdout)
    end.
Proof.
  destruct package as [workout_type data]. unfold line_of. cbn [script fst snd].
  destruct (read_package workout_type data) as [training|]; [|reflexivity].
  rewrite main_line. cbn [mbind result_bind].
  destruct (info ← eval (show_training_info float_pow) training;
            get_message info); reflexivity.
Qed.

(** X12: the script prints one line per package, in the order of the
    packages, after what was printed before; the first package whose
    factory call, summary or message raises ends the run with that
    exception, the lines of the packages before it printed and nothing
    of the packages after it. *)
Theorem script_prints_in_order done lines stdout :
  Forall2 (λ package message, line_of float_pow package = Ok message)
    done lines →
  script float_pow done stdout = (Ok (), stdout ++ lines)
  ∧ ∀ package rest e,
      line_of float_pow package = Raise e →
      script float_pow (done ++ package :: rest) stdout
      = (Raise e, stdout ++ lines).
Proof.
  intros Hdone. revert stdout.
  induction Hdone as [|package message done lines Hline _ IH]; intros stdout.
  - rewrite app_nil_r. split; [reflexivity|].
    intros package rest e Hline. cbn [app].
    rewrite script_cons, Hline. reflexivity.
  - replace (stdout ++ message :: lines) with ((stdout ++ [message]) ++ lines)
      by (rewrite <- app_assoc; reflexivity).
    destruct (IH (stdout ++ [message])) as [IHok IHraise]. split.
    + rewrite script_cons, Hline. exact IHok.
    + intros package' rest e Hline'. cbn [app].
      rewrite script_cons, Hline. exact (IHraise _ _ _ Hline').
Qed.

(** *** Reading a printed number back *)

Lemma string_length_app (s t : string) :
  String.length (s +:+ t) = (String.length s + String.length t)%nat.
Proof.
  induction s as [|c s IH]; [reflexivity|].
  change (S (String.length (s +:+ t)) = S (String.length s + String.length t)).
  rewrite IH. reflexivity.
Qed.

Lemma string_app_assoc (s t u : string) : (s +:+ t) +:+ u = s +:+ t +:+ u.
Proof.
  induction s as [|c s IH]; [reflexivity|].
  change (String c ((s +:+ t) +:+ u) = String c (s +:+ t +:+ u)).
  rewrite IH. reflexivity.
Qed.

(** Two texts that end in tails of the same length agree part by part. *)
Lemma string_app_inj_tail (s1 s2 t1 t2 : string) :
  String.length t1 = String.length t2 →
  s1 +:+ t1 = s2 +:+ t2 → s1 = s2 ∧ t1 = t2.
Proof.
  intros Hlen. revert s2.
  induction s1 as [|c s1 IH]; intros [|c' s2] Heq.
  - split; [reflexivity | exact Heq].
  - apply (f_equal String.length) in Heq.
    rewrite !string_length_app in Heq. simpl in Heq. lia.
  - apply (f_equal String.length) in Heq.
    rewrite !string_length_app in Heq. simpl in Heq. lia.
  - change (String c (s1 +:+ t1) = String c' (s2 +:+ t2)) in Heq.
    injection Heq as -> Heq. destruct (IH _ Heq) as [-> ->]. split; reflexivity.
Qed.

Lemma digit_inj n n' : digit n = digit n' → n mod 10 = n' mod 10.
Proof.
  unfold digit. intros Heq.
  pose proof (Z.mod_pos_bound n 10 ltac:(lia)) as Hn.
  pose proof (Z.mod_pos_bound n' 10 ltac:(lia)) as Hn'.
  apply (f_equal N_of_ascii) in Heq.
  rewrite !N_ascii_embedding in Heq by lia. lia.
Qed.

Lemma pretty_nonneg_no_dash q s : 0 ≤ q → pretty q ≠ "-" +:+ s.
Proof.
  intros Hq. destruct q as [|p|p]; [discriminate| |lia].
  change (pretty (Z.pos p)) with (pretty (N.pos p)).
  unfold pretty, pretty_N. rewrite decide_False by discriminate.
  apply pretty_N_go_ne_dash. discriminate.
Qed.

Lemma last_three_digits n :
  n = 1000 * (n / 1000)
      + 100 * ((n / 100) mod 10) + 10 * ((n / 10) mod 10) + n mod 10.
Proof.
  pose proof (Z.div_mod n 10 ltac:(lia)) as H1.
  pose proof (Z.div_mod (n / 10) 10 ltac:(lia)) as H2.
  pose proof (Z.div_mod (n / 100) 10 ltac:(lia)) as H3.
  rewrite Z.div_div in H2 by lia. rewrite Z.div_div in H3 by lia.
  change (10 * 10) with 100 in H2. change (100 * 10) with 1000 in H3. lia.
Qed.

(** The text printed for a sign and a number of thousandths gives both
    back. *)
Lemma fixed3_inj s n s' n' :
  0 ≤ n → 0 ≤ n' →
  fixed3 s n = fixed3 s' n' → s = s' ∧ n = n'.
Proof.
  intros Hn Hn'. unfold fixed3. rewrite <- !string_app_assoc.
  intros Heq. apply string_app_inj_tail in Heq as [Hhead Htail];
    [|reflexivity].
  injection Htail as H1 H2 H3.
  apply digit_inj in H1, H2, H3.
  assert (0 ≤ n / 1000) as Hq by (apply Z.div_pos; lia).
  assert (0 ≤ n' / 1000) as Hq' by (apply Z.div_pos; lia).
  apply string_app_inj_tail in Hhead as [Hhead _]; [|reflexivity].
  assert (s = s' ∧ n / 1000 = n' / 1000) as [-> Hwhole].
  { destruct s, s'.
    - apply (inj (String.app "-")) in Hhead. split; [reflexivity|].
      exact (pretty_Z_inj _ _ Hhead).
    - symmetry in Hhead. destruct (pretty_nonneg_no_dash _ _ Hq' Hhead).
    - destruct (pretty_nonneg_no_dash _ _ Hq Hhead).
    - split; [reflexivity|]. exact (pretty_Z_inj _ _ Hhead). }
  split; [reflexivity|].
  rewrite (last_three_digits n), (last_three_digits n'). lia.
Qed.

Lemma round_half_even_nonneg n d : 0 ≤ n → 0 < d → 0 ≤ round_half_even n d.
Proof.
  intros Hn Hd. unfold round_half_even.
  assert (0 ≤ n / d) by (apply Z.div_pos; lia).
  repeat case_match; lia.
Qed.

Lemma thousandths_nonneg m e : 0 ≤ thousandths m e.
Proof.
  unfold thousandths. destruct (Z.leb_spec 0 e).
  - assert (0 < 2 ^ e) by (apply Z.pow_pos_nonneg; lia). lia.
  - apply round_half_even_nonneg; [lia|]. apply Z.pow_pos_nonneg; lia.
Qed.

(** X13: the text printed for a finite double gives its sign and its
    number of thousandths back: two finite doubles are printed alike only
    if they have the same sign and round to the same thousandth. *)
Theorem float_format_3f_inj f g s m e s' m' e' :
  Prim2SF f = S754_finite s m e →
  Prim2SF g = S754_finite s' m' e' →
  float_format_3f f = float_format_3f g →
  s = s' ∧ thousandths m e = thousandths m' e'.
Proof.
  intros Hf Hg. unfold float_format_3f. rewrite Hf, Hg.
  apply fixed3_inj; apply thousandths_nonneg.
Qed.

End Extras.

(** ** The further properties at concrete inputs *)

Lemma sample_pow_square : square_raises_arith sample_pow.
Proof.
  intros x. unfold sample_pow.
  change (2 =? 2)%float with true. cbv iota.
  destruct (is_infinity (x * x) && negb (is_infinity x)); simpl; auto.
Qed.

Example script_packages :
  script sample_pow packages [] = (Ok (), expected_output).
Proof. vm_compute. reflexivity. Qed.

(** A package with an unknown code stops the run after the first line. *)
Example script_unknown_code :
  ∃ message,
    script sample_pow
      [("SWM", [PyInt 720; PyInt 1; PyInt 80; PyInt 25; PyInt 40]);
       ("XYZ", [PyInt 1]);
       ("RUN", [PyInt 15000; PyInt 1; PyInt 75])] []
    = (Raise (ValueError message), take 1 expected_output).
Proof. eexists. vm_compute. reflexivity. Qed.

Example float_format_3f_ties :
  float_format_3f 0.125 = "0.125"
  ∧ float_format_3f 2.6875 = "2.688"
  ∧ float_format_3f 2.6865 = "2.687"
  ∧ float_format_3f 0.0005 = "0.001"
  ∧ float_format_3f (-0.0001) = "-0.000"
  ∧ float_format_3f infinity = "inf".
Proof. repeat split; vm_compute; reflexivity. Qed.

Lemma methods_return_floats_witness :
  new SportsWalking [PyInt 9000; PyFloat 1; PyInt 75; PyFloat 180] = Ok walker
  ∧ float_outcome (eval get_distance walker)
  ∧ float_outcome (eval get_mean_speed walker)
  ∧ float_outcome (eval (get_spent_calories sample_pow) walker).
Proof.
  split; [reflexivity|].
  pose (methods_return_floats sample_pow SportsWalking
          [PyInt 9000; PyFloat 1; PyInt 75; PyFloat 180] walker eq_refl) as H.
  split; [exact (proj1 H)|]. split; [exact (proj1 (proj2 H))|].
  exact (proj2 (proj2 H) ltac:(discriminate) sample_pow_square).
Defined.

Lemma Training_show_training_info_raises_witness :
  ob_type trainee = Training
  ∧ eval (show_training_info sample_pow) trainee
    = Raise (NotImplementedError not_implemented_text).
Proof.
  split; [reflexivity|].
  exact (proj2 (Training_show_training_info_raises sample_pow trainee eq_refl)
           (PyFloat 1) (PyFloat 5.8499999999999996)
           (PyFloat 5.8499999999999996) eq_refl eq_refl eq_refl).
Defined.

Lemma init_then_getattr_witness :
  new Swimming [PyInt 720; PyFloat 1; PyInt 80; PyFloat 25; PyInt 40] = Ok swimmer
  ∧ init_params Swimming !! 3%nat = Some "length_pool"
  ∧ eval (getattr "length_pool") swimmer = Ok (PyFloat 25).
Proof.
  split; [reflexivity|]. split; [reflexivity|].
  exact (init_then_getattr Swimming
           [PyInt 720; PyFloat 1; PyInt 80; PyFloat 25; PyInt 40] swimmer
           3%nat "length_pool" (PyFloat 25) eq_refl eq_refl eq_refl).
Defined.

Lemma read_package_then_summary_witness :
  read_package "WLK" [PyInt 9000; PyFloat 1; PyInt 75; PyFloat 180] = Ok walker
  ∧ ob_type walker ≠ Training
  ∧ arith_outcome (eval (show_training_info sample_pow) walker).
Proof.
  split; [reflexivity|].
  exact (read_package_then_summary sample_pow "WLK"
           [PyInt 9000; PyFloat 1; PyInt 75; PyFloat 180] walker
           sample_pow_square eq_refl).
Defined.

Lemma get_mean_speed_nonzero_duration_witness :
  (1 =? 0)%float = false
  ∧ new Running [PyInt 15000; PyFloat 1; PyInt 75] = Ok runner
  ∧ eval get_mean_speed runner ≠ Raise ZeroDivisionError.
Proof.
  split; [reflexivity|]. split; [reflexivity|].
  exact (proj2 (get_mean_speed_nonzero_duration Running (PyInt 15000) 1%float
                  [PyInt 75] runner eq_refl eq_refl)).
Defined.

Lemma distance_and_speed_inherited_witness :
  new Running [PyInt 9000; PyFloat 1; PyInt 60] = Ok jogger
  ∧ new SportsWalking [PyInt 9000; PyFloat 1; PyInt 75; PyFloat 180] = Ok walker
  ∧ eval get_distance jogger = eval get_distance walker
  ∧ eval get_mean_speed jogger = eval get_mean_speed walker.
Proof.
  split; [reflexivity|]. split; [reflexivity|].
  exact (distance_and_speed_inherited Running SportsWalking
           (PyInt 9000) (PyFloat 1) [PyInt 60] [PyInt 75; PyFloat 180]
           jogger walker ltac:(discriminate) ltac:(discriminate)
           eq_refl eq_refl).
Defined.

Lemma Swimming_calories_ignore_action_witness :
  new Swimming [PyInt 720; PyFloat 1; PyInt 80; PyFloat 25; PyInt 40] = Ok swimmer
  ∧ new Swimming [PyInt 0; PyFloat 1; PyInt 80; PyFloat 25; PyInt 40] = Ok floater
  ∧ eval (get_spent_calories sample_pow) swimmer
    = eval (get_spent_calories sample_pow) floater.
Proof.
  split; [reflexivity|]. split; [reflexivity|].
  exact (Swimming_calories_ignore_action sample_pow
           (PyInt 720) (PyInt 0) (PyFloat 1) (PyInt 80) (PyFloat 25) (PyInt 40)
           swimmer floater eq_refl eq_refl).
Defined.

Lemma get_message_returns_witness :
  get_message (mkInfoMessage "Swimming" (PyInt 1) (PyFloat 0.99359999999999993)
                 (PyFloat 1) (PyFloat 336))
  = Ok "Тип тренировки: Swimming; Длительность: 1.000 ч.; Дистанция: 0.994 км; Ср. скорость: 1.000 км/ч; Потрачено ккал: 336.000.".
Proof.
  exact (proj2 (get_message_returns
                  (mkInfoMessage "Swimming" (PyInt 1)
                     (PyFloat 0.99359999999999993) (PyFloat 1) (PyFloat 336)))
           1%float 0.99359999999999993%float 1%float 336%float
           eq_refl eq_refl eq_refl eq_refl).
Defined.

Lemma summary_then_get_message_witness :
  read_package "RUN" [PyInt 15000; PyFloat 1; PyInt 75] = Ok runner
  ∧ ∃ message,
      get_message (mkInfoMessage "Running" (PyFloat 1) (PyFloat 9.75)
                     (PyFloat 9.75) (PyFloat 797.80499999999995))
      = Ok message.
Proof.
  split; [reflexivity|].
  exact (summary_then_get_message sample_pow "RUN"
           [PyInt 15000; PyFloat 1; PyInt 75] runner
           (mkInfoMessage "Running" (PyFloat 1) (PyFloat 9.75)
              (PyFloat 9.75) (PyFloat 797.80499999999995))
           1%float sample_pow_square eq_refl eq_refl eq_refl).
Defined.

(** 0.99359999999999993 is [8949553179510649 * 2^-53]: 994 thousandths. *)
Lemma thousandths_nearest_witness :
  (-53 < 0)%Z
  ∧ thousandths 8949553179510649 (-53) = 994%Z
  ∧ (2 * Z.abs (8949553179510649 * 1000 - 994 * 2 ^ 53) ≤ 2 ^ 53)%Z.
Proof.
  split; [reflexivity|]. split; [reflexivity|].
  exact (proj1 (proj2 (thousandths_nearest 8949553179510649 (-53))
                  ltac:(reflexivity))).
Defined.

Lemma script_prints_in_order_witness :
  script sample_pow packages [] = (Ok (), expected_output).
Proof.
  refine (proj1 (script_prints_in_order sample_pow packages expected_output []
                   _)).
  repeat constructor.
Defined.

Lemma float_format_3f_inj_witness :
  float_format_3f 0.1234 = float_format_3f 0.1229
  ∧ thousandths 8891907104280307 (-56) = thousandths 8855878307261343 (-56).
Proof.
  split; [reflexivity|].
  exact (proj2 (float_format_3f_inj 0.1234 0.1229
                  false 8891907104280307 (-56) false 8855878307261343 (-56)
                  eq_refl eq_refl eq_refl)).
Defined.
